(** * pagetty: the user model (src/models/user.js)

    A shallow embedding of the user model: the subscription workflows
    ([subscribe], [subscribeToChannel], [unsubscribe]), the delta sync
    ([getChannelUpdates]), the account life cycle ([signup],
    [findOrCreate], [activate], [authenticate], [checkIfUnverified]) and the
    cascade run after a user document is removed.

    The model is written in continuation-free direct style: what the
    JavaScript passes to [callback] is the value a computation returns, an
    uncaught exception is the outcome [Threw], and every call into a
    collaborator of the [app] object is recorded in a history. *)

From Stdlib Require Import ZArith Ascii String List Lia.
From stdpp Require Import base option list gmap strings pretty.
Import ListNotations.

Local Open Scope string_scope.
Local Open Scope Z_scope.
Local Open Scope list_scope.

(** ** Data model *)

(** A MongoDB ObjectId, represented by its hexadecimal string: with that
    representation [app.objectId] and [ObjectId.toString] are the identity. *)
Definition ObjectId := string.

(** A truthy error value handed to a callback as its first argument. *)
Definition Err := string.

(** A JavaScript [Date]; [getTime] is its epoch value in milliseconds. *)
Record Date := mkDate { getTime : Z }.

(** The largest time value of a [Date], in milliseconds on either side of
    the epoch: [new Date(t)] is an invalid date for a number beyond it. *)
Definition max_time : Z := 8640000000000000.

(** A JavaScript string is represented by its UTF-8 bytes.  [utf16_units]
    is the number of UTF-16 code units that start at a byte: none at a
    continuation byte, two at the first byte of a four-byte sequence (a
    surrogate pair), one otherwise. *)
Definition utf16_units (c : ascii) : nat :=
  let n := nat_of_ascii c in
  if (n <? 128)%nat then 1%nat
  else if (n <? 192)%nat then 0%nat
  else if (n <? 240)%nat then 1%nat
  else 2%nat.

(** [s.length]: the number of UTF-16 code units of the string. *)
Fixpoint js_length (s : string) : nat :=
  match s with
  | EmptyString => 0%nat
  | String c rest => (utf16_units c + js_length rest)%nat
  end.

(** What [app.parseFeed] yields. *)
Record Feed := mkFeed {
  feed_title : string;
  feed_type : string;
  feed_url : string;
  feed_domain : string
}.

(** A stored channel item: [item_created] is a [Date]. *)
Record Item := mkItem {
  item_content : string;
  item_created : Date
}.

(** A channel document, with the fields user.js reads. [items_added] is
    [None] for a channel that has never been crawled; [title] is [None] when
    the document has no title. *)
Record Channel := mkChannel {
  channel_id : ObjectId;
  channel_type : string;
  channel_url : string;
  channel_domain : string;
  channel_title : option string;
  items : list Item;
  items_added : option Date
}.

(** The value of a key of the [subscriptions] field (Mixed in the schema). *)
Definition Mixed := string.

(** userSchema. *)
Record User := mkUser {
  user_id : ObjectId;
  mail : string;
  pass : option string;
  created : Date;
  subscriptions : gmap string Mixed;
  high : Date;
  low : Date;
  verification : option string;
  verified : bool
}.

(** A document handed to [app.list.create]. *)
Record ListDoc := mkListDoc {
  list_type : string;
  list_name : option string;
  list_user_id : ObjectId;
  list_channel_id : ObjectId;
  list_weight : option Z
}.

(** The value a variable is bound to. *)
Inductive JsValue :=
| VString (s : string)
| VObject (description : string)
| VFunction (name : string).

(** A filter handed to [findOne] on the users collection; an absent field
    is [None]. *)
Record UserQuery := mkUserQuery {
  q_id : option JsValue;
  q_mail : option string;
  q_name : option string;
  q_verified : option bool
}.

(** An item as it leaves [getChannelUpdates]: [created] is an epoch number. *)
Record ItemUpdate := mkItemUpdate {
  upd_item_content : string;
  upd_item_created : Z
}.

(** An entry of the result of [getChannelUpdates]. *)
Record ChannelUpdate := mkChannelUpdate {
  upd_id : ObjectId;
  upd_items_added : Z;
  upd_items : list ItemUpdate
}.

(** ** Collaborators *)

(** A call into a collaborator. *)
Inductive Event :=
| EParseFeed (url : string)
| EChannelFindOne (url : string)
| EChannelFindById (id : ObjectId)
| EChannelFind (ids : list ObjectId)
| EChannelSave (ch : Channel)
| EChannelCrawl (ch : Channel)
| EChannelUpdateSubscriberCount (ch : Channel)
| EListCreateFromChannel (uid cid : ObjectId) (title : string)
| EListCount (uid cid : ObjectId)
| EListCreate (doc : ListDoc)
| EListRemove (uid cid : ObjectId)
| EListCreateUserDefaults (u : User)
| EStateRemove (uid : ObjectId)
| EUserFindOne (q : UserQuery)
| EUserSave (u : User)
| EUserCreate (u : User)
| EMail (to subject template : string)
| ENotifyOnSubscribe (u : User) (ch : option Channel)
| ENotifyOnUnSubscribe (u : User) (ch : option Channel)
| ENotifyOnActivate (u : User)
| ENotifyOnSignup (u : User)
| ENotifyOnAccountDelete (u : User).

Definition History := list Event.

(** The [app] object: what each collaborator answers, given the calls made
    so far.  A callback of the shape [function(err, doc)] receives
    [inl err] or [inr doc], where [doc] is [None] when the second argument
    is null or undefined; one of the shape [function(err)] receives
    [Some err] or [None].  [new_ObjectId] and [new_Date] stand for
    [new mongoose.Types.ObjectId()] and [new Date()], [isEmail] and
    [notEmpty] for the checks of the validator, and [global] for the global
    object, where a name bound in no enclosing function is looked up. *)
Record App := mkApp {
  parseFeed : History -> string -> Err + option Feed;
  channel_findOne : History -> string -> Err + option Channel;
  channel_findById : History -> ObjectId -> Err + option Channel;
  channel_find : History -> list ObjectId -> Err + list Channel;
  channel_save : History -> Channel -> option Err;
  channel_crawl : History -> Channel -> option Err;
  channel_updateSubscriberCount : History -> Channel -> option Err;
  list_createFromChannel : History -> ObjectId -> ObjectId -> string -> option Err;
  list_count : History -> ObjectId -> ObjectId -> Err + nat;
  list_create : History -> ListDoc -> option Err;
  list_remove : History -> ObjectId -> ObjectId -> option Err;
  list_createUserDefaults : History -> User -> option Err;
  state_remove : History -> ObjectId -> option Err;
  user_findOne : History -> UserQuery -> Err + option User;
  user_save : History -> User -> option Err;
  user_create : History -> User -> option Err;
  new_ObjectId : History -> ObjectId;
  new_Date : History -> Date;
  isEmail : string -> bool;
  notEmpty : string -> bool;
  global : gmap string JsValue
}.

(** ** Computations *)

Inductive JsError :=
| TypeError (what : string)
| ReferenceError (name : string)
| Uncaught (e : Err).

Inductive Outcome (A : Type) :=
| Returned (a : A)
| Threw (e : JsError).
Arguments Returned {A} a.
Arguments Threw {A} e.

(** The variables a function closes over, and the calls made so far. *)
Record Machine (L : Type) := mkMachine {
  locals : L;
  history : History
}.
Arguments mkMachine {L} _ _.
Arguments locals {L} _.
Arguments history {L} _.

Definition M (L A : Type) := Machine L -> Outcome A * Machine L.

Definition ret {L A} (a : A) : M L A := fun s => (Returned a, s).

Definition bind {L A B} (m : M L A) (k : A -> M L B) : M L B :=
  fun s => match m s with
           | (Returned a, s') => k a s'
           | (Threw e, s') => (Threw e, s')
           end.

Definition throw {L A} (e : JsError) : M L A := fun s => (Threw e, s).

Definition get {L} : M L L := fun s => (Returned (locals s), s).

Definition put {L} (l : L) : M L unit :=
  fun s => (Returned tt, mkMachine l (history s)).

(** A call into a collaborator: the answer may depend on the calls made so
    far, and the call is appended to them. *)
Definition io {L X} (ev : Event) (answer : History -> X) : M L X :=
  fun s => (Returned (answer (history s)),
            mkMachine (locals s) (history s ++ [ev])).

(** Reading the environment without calling a collaborator. *)
Definition peek {L X} (answer : History -> X) : M L X :=
  fun s => (Returned (answer (history s)), s).

(** A fire-and-forget call. *)
Definition emit {L} (ev : Event) : M L unit := io ev (fun _ => tt).

Declare Scope js_scope.
Delimit Scope js_scope with js.
Notation "x <- m ;; k" := (bind m (fun x => k))
  (at level 100, m at next level, right associativity) : js_scope.
Notation "m ;;; k" := (bind m (fun _ => k))
  (at level 100, right associativity) : js_scope.
Local Open Scope js_scope.

(** Property access on a value that may be null or undefined. *)
Definition deref {L A} (what : string) (o : option A) : M L A :=
  match o with
  | Some a => ret a
  | None => throw (TypeError what)
  end.

(** [next(err)] inside a task of [async.series]. *)
Definition next {L} (err : option Err) : M L (option Err) := ret err.

(** [async.series(tasks, final)]: the tasks run in order; the first one that
    reports an error ends the series, and that error is what the final
    callback receives. *)
Fixpoint async_series {L} (tasks : list (M L (option Err))) : M L (option Err) :=
  match tasks with
  | [] => ret None
  | task :: rest =>
      err <- task ;;
      match err with
      | Some e => ret (Some e)
      | None => async_series rest
      end
  end.

(** [for (var i in xs) body(xs[i])]. *)
Fixpoint for_each {L A} (xs : list A) (body : A -> M L unit) : M L unit :=
  match xs with
  | [] => ret tt
  | x :: rest => body x ;;; for_each rest body
  end.

(** Running a function from fresh locals and an empty history. *)
Definition run {L A} (init : L) (m : M L A) : Outcome A * History :=
  let (o, s) := m (mkMachine init []) in (o, history s).

Definition run_locals {L A} (init : L) (m : M L A) : Outcome A * L * History :=
  let (o, s) := m (mkMachine init []) in (o, locals s, history s).

(** ** The user model *)

Section UserModel.

Context (app : App).

(** [require('crypto').createHash('sha1').update(s, 'utf8').digest('hex')] *)
Context (sha1_hex : string -> string).

(** *** subscribe *)

(** [var channel = null; var feed = null;] *)
Record SubscribeVars := mkSubscribeVars {
  channel : option Channel;
  feed : option Feed
}.

Definition set_feed (f : option Feed) : M SubscribeVars unit :=
  vars <- get ;; put (mkSubscribeVars (channel vars) f).

Definition set_channel (c : option Channel) : M SubscribeVars unit :=
  vars <- get ;; put (mkSubscribeVars c (feed vars)).

(** [new app.channel({type: feed.type, url: feed.url, domain: feed.domain})] *)
Definition new_channel (id : ObjectId) (f : Feed) : Channel :=
  mkChannel id (feed_type f) (feed_url f) (feed_domain f) None [] None.

(** Parse the feed contents. *)
Definition subscribe_parse (url : string) : M SubscribeVars (option Err) :=
  r <- io (EParseFeed url) (fun h => parseFeed app h url) ;;
  match r with
  | inl err => next (Some err)
  | inr parsed_feed => set_feed parsed_feed ;;; next None
  end.

(** Check that the channel exists and create it if necessary. *)
Definition subscribe_resolve : M SubscribeVars (option Err) :=
  vars <- get ;;
  f <- deref "feed" (feed vars) ;;
  r <- io (EChannelFindOne (feed_url f)) (fun h => channel_findOne app h (feed_url f)) ;;
  match r with
  | inr (Some doc) => set_channel (Some doc) ;;; next None
  | _ =>
      id <- peek (new_ObjectId app) ;;
      let ch := new_channel id f in
      set_channel (Some ch) ;;;
      err <- io (EChannelSave ch) (fun h => channel_save app h ch) ;;
      next err
  end.

(** Update the channel items. *)
Definition subscribe_crawl : M SubscribeVars (option Err) :=
  vars <- get ;;
  ch <- deref "channel" (channel vars) ;;
  _ <- io (EChannelCrawl ch) (fun h => channel_crawl app h ch) ;;
  next None.

(** Create a list (subscription) for the user. *)
Definition subscribe_list (self : User) : M SubscribeVars (option Err) :=
  vars <- get ;;
  ch <- deref "channel" (channel vars) ;;
  f <- deref "feed" (feed vars) ;;
  err <- io (EListCreateFromChannel (user_id self) (channel_id ch) (feed_title f))
            (fun h => list_createFromChannel app h (user_id self) (channel_id ch) (feed_title f)) ;;
  match err with
  | Some _ => next (Some "Could not update user subscription.")
  | None => next None
  end.

(** Increment channel's subscribers counter. *)
Definition subscribe_count : M SubscribeVars (option Err) :=
  vars <- get ;;
  ch <- deref "channel" (channel vars) ;;
  err <- io (EChannelUpdateSubscriberCount ch)
            (fun h => channel_updateSubscriberCount app h ch) ;;
  match err with
  | Some _ => next (Some "Could not increment subscribers.")
  | None => next None
  end.

(** The body of userSchema.methods.subscribe: the result is what [callback]
    receives, [(err, channel)]. *)
Definition subscribe_body (self : User) (url : string)
  : M SubscribeVars (option Err * option Channel) :=
  err <- async_series [
    subscribe_parse url;
    subscribe_resolve;
    subscribe_crawl;
    subscribe_list self;
    subscribe_count
  ] ;;
  vars <- get ;;
  emit (ENotifyOnSubscribe self (channel vars)) ;;;
  ret (err, channel vars).

(** userSchema.methods.subscribe, from [var channel = null; var feed = null]. *)
Definition subscribe (self : User) (url : string)
  : Outcome (option Err * option Channel) * History :=
  run (mkSubscribeVars None None) (subscribe_body self url).

(** *** subscribeToChannel *)

(** The body of userSchema.methods.subscribeToChannel; the only variable the
    tasks share is [channel], a falsy value being [None]. *)
Definition subscribeToChannel_body (self : User) (cid : ObjectId)
  : M (option Channel) (option Err * option Channel) :=
  err <- async_series [
    (* Load channel. *)
    (r <- io (EChannelFindById cid) (fun h => channel_findById app h cid) ;;
     match r with
     | inl err => put None ;;; next (Some err)
     | inr ch => put ch ;;; next None
     end);
    (* Check that the user is not yet subscribed. *)
    (r <- io (EListCount (user_id self) cid) (fun h => list_count app h (user_id self) cid) ;;
     match r with
     | inr (S _) => next (Some "You are already subscribed to this site.")
     | _ => next None
     end);
    (* Create a list for this subscription. *)
    (ch <- get ;;
     c <- deref "channel" ch ;;
     let doc := mkListDoc "channel" (channel_title c) (user_id self) cid None in
     err <- io (EListCreate doc) (fun h => list_create app h doc) ;;
     match err with
     | Some _ => next (Some "Could not subscribe to this site.")
     | None => next None
     end);
    (* Increment channel's subscribers counter. *)
    (ch <- get ;;
     c <- deref "channel" ch ;;
     err <- io (EChannelUpdateSubscriberCount c)
               (fun h => channel_updateSubscriberCount app h c) ;;
     match err with
     | Some _ => next (Some "Could not increment subscribers.")
     | None => next None
     end)
  ] ;;
  ch <- get ;;
  emit (ENotifyOnSubscribe self ch) ;;;
  ret (err, ch).

(** userSchema.methods.subscribeToChannel, from [var channel = false]. *)
Definition subscribeToChannel (self : User) (cid : ObjectId)
  : Outcome (option Err * option Channel) * History :=
  run None (subscribeToChannel_body self cid).

(** *** unsubscribe *)

(** userSchema.methods.unsubscribe: [callback()] receives nothing. *)
Definition unsubscribe_body (self : User) (cid : ObjectId) : M unit unit :=
  _ <- io (EListRemove (user_id self) cid) (fun h => list_remove app h (user_id self) cid) ;;
  r <- io (EChannelFindById cid) (fun h => channel_findById app h cid) ;;
  let ch := match r with inr doc => doc | inl _ => None end in
  c <- deref "channel" ch ;;
  _ <- io (EChannelUpdateSubscriberCount c)
          (fun h => channel_updateSubscriberCount app h c) ;;
  emit (ENotifyOnUnSubscribe self ch) ;;;
  ret tt.

Definition unsubscribe (self : User) (cid : ObjectId) : Outcome unit * History :=
  run tt (unsubscribe_body self cid).

(** *** subscribedChannels *)

(** The keys of an object that [for (var k in o)] visits, each once.  They
    are listed in the order of the map; the order JavaScript visits them in
    only decides the order of the ids inside one [$in] filter. *)
Definition keys {V} (o : gmap string V) : list string :=
  map fst (map_to_list o).

(** userSchema.methods.subscribedChannels *)
Definition subscribedChannels {L} (self : User) : M L (list Channel) :=
  let ids := keys (subscriptions self) in
  r <- io (EChannelFind ids) (fun h => channel_find app h ids) ;;
  match r with
  | inl err => throw (Uncaught err)
  | inr channels => ret channels
  end.

(** *** getChannelUpdates *)

(** [time > new Date(w)], where [w] is what [state[id]] holds: the date of
    an absent key and the date of a number beyond [max_time] are invalid,
    and an invalid date compares false with every number. *)
Definition later_than (time : Z) (w : option Z) : bool :=
  match w with
  | Some t => if Z.abs t <=? max_time then t <? time else false
  | None => false
  end.

(** [items[j].created = items[j].created.getTime()] for every [j]. *)
Definition created_to_epoch (its : list Item) : list ItemUpdate :=
  map (fun it => mkItemUpdate (item_content it) (getTime (item_created it))) its.

(** The body of the loop over the query results; [updates] is the variable
    the loop pushes to. *)
Definition collect_update (state : gmap string Z) (result : Channel)
  : M (list ChannelUpdate) unit :=
  let time := match items_added result with
              | Some d => getTime d
              | None => 0
              end in
  if later_than time (state !! channel_id result) then
    let its := created_to_epoch (items result) in
    d <- deref "items_added" (items_added result) ;;
    updates <- get ;;
    put (updates ++ [mkChannelUpdate (channel_id result) (getTime d) its])
  else ret tt.

(** userSchema.methods.getChannelUpdates: [state] is [None] when the
    argument is absent (falsy); an object, even an empty one, is truthy. *)
Definition getChannelUpdates_body (self : User) (state : option (gmap string Z))
  : M (list ChannelUpdate) (list ChannelUpdate) :=
  match state with
  | Some state =>
      let ids := keys state in
      r <- io (EChannelFind ids) (fun h => channel_find app h ids) ;;
      match r with
      | inl err => throw (Uncaught err)
      | inr results =>
          for_each results (collect_update state) ;;;
          updates <- get ;;
          ret updates
      end
  | None => ret []
  end.

(** getChannelUpdates, from [var updates = []]. *)
Definition getChannelUpdates (self : User) (state : option (gmap string Z))
  : Outcome (list ChannelUpdate) * History :=
  run [] (getChannelUpdates_body self state).

(** *** activate *)

Definition set_verified (u : User) (v : bool) : User :=
  mkUser (user_id u) (mail u) (pass u) (created u) (subscriptions u)
         (high u) (low u) (verification u) v.

(** userSchema.methods.activate: the variable of the computation is [this],
    the document the method is called on. *)
Definition activate_body : M User (option Err) :=
  this <- get ;;
  put (set_verified this true) ;;;
  self <- get ;;
  err <- io (EUserSave self) (fun h => user_save app h self) ;;
  emit (ENotifyOnActivate self) ;;;
  ret err.

(** [user.activate(callback)]: what [callback] receives, the document after
    the call, and the calls made. *)
Definition activate (user : User) : Outcome (option Err) * User * History :=
  run_locals user activate_body.

(** *** findOrCreate *)

(** userSchema.statics.findOrCreate; [app.user.create(doc, cb)] hands the
    created document to [cb], or an error and no document. *)
Definition findOrCreate_body (mail_ : string) : M unit (option Err * option User) :=
  date <- peek (new_Date app) ;;
  let q := mkUserQuery None (Some mail_) None None in
  r <- io (EUserFindOne q) (fun h => user_findOne app h q) ;;
  match r with
  | inr (Some user) => ret (None, Some user)
  | _ =>
      id <- peek (new_ObjectId app) ;;
      let doc := mkUser id mail_ None date ∅ date date None true in
      err <- io (EUserCreate doc) (fun h => user_create app h doc) ;;
      let user := match err with Some _ => None | None => Some doc end in
      u <- deref "user" user ;;
      emit (EMail (mail u) "Welcome to pagetty.com" "signup_auto") ;;;
      ret (err, user)
  end.

Definition findOrCreate (mail_ : string) : Outcome (option Err * option User) * History :=
  run tt (findOrCreate_body mail_).

(** *** hashPassword *)

(** userSchema.statics.hashPassword *)
Definition hashPassword (id : ObjectId) (plainPass : string) : string :=
  sha1_hex ("lwearGYw3p29" +:+ id +:+ plainPass).

(** *** signup *)

Record SignupData := mkSignupData {
  data_mail : string;
  data_pass : string;
  data_pass2 : string
}.

(** The four checks of [signup], each adding its message when it fails;
    the result is [validator.getErrors()]. *)
Definition signup_errors (data : SignupData) : list string :=
  (if isEmail app (data_mail data) then [] else ["E-mail is not valid."]) ++
  (if notEmpty app (data_pass data) then [] else ["Password is required."]) ++
  (if (6 <=? js_length (data_pass data))%nat then []
   else ["Password must contain at least 6 characters."]) ++
  (if String.eqb (data_pass data) (data_pass2 data) then []
   else ["Passwords do not match."]).

(** userSchema.statics.signup *)
Definition signup_body (data : SignupData) : M unit (option Err * option User) :=
  match signup_errors data with
  | e :: _ => ret (Some e, None)
  | [] =>
      err <- async_series [
        (let q := mkUserQuery None (Some (data_mail data)) None None in
         r <- io (EUserFindOne q) (fun h => user_findOne app h q) ;;
         match r with
         | inr (Some _) => next (Some "E-mail is already in use.")
         | _ => next None
         end)
      ] ;;
      match err with
      | Some e => ret (Some e, None)
      | None =>
          id <- peek (new_ObjectId app) ;;
          let pass_ := hashPassword id (data_pass data) in
          date <- peek (new_Date app) ;;
          let verification_ := sha1_hex ("qwmi39ds" +:+ pretty (getTime date)) in
          let user := mkUser id (data_mail data) (Some pass_) date ∅ date date
                             (Some verification_) false in
          err <- io (EUserSave user) (fun h => user_save app h user) ;;
          match err with
          | Some _ => ret (Some "Unable to create user account.", None)
          | None =>
              _ <- io (EListCreateUserDefaults user)
                      (fun h => list_createUserDefaults app h user) ;;
              emit (EMail (mail user) "Welcome to pagetty.com" "signup") ;;;
              emit (ENotifyOnSignup user) ;;;
              ret (None, Some user)
          end
      end
  end.

Definition signup (data : SignupData) : Outcome (option Err * option User) * History :=
  run tt (signup_body data).

(** *** authenticate *)

(** userSchema.statics.authenticate *)
Definition authenticate_body (mail_ plainPass : string)
  : M unit (option Err * option User) :=
  let q := mkUserQuery None (Some mail_) None (Some true) in
  r <- io (EUserFindOne q) (fun h => user_findOne app h q) ;;
  let user := match r with inr doc => doc | inl _ => None end in
  match user with
  | None => ret (Some "Username or password does not match.", None)
  | Some u =>
      if decide (pass u = Some (hashPassword (user_id u) plainPass))
      then ret (None, Some u)
      else ret (Some "Username or password does not match.", None)
  end.

Definition authenticate (mail_ plainPass : string)
  : Outcome (option Err * option User) * History :=
  run tt (authenticate_body mail_ plainPass).

(** *** checkIfUsernameUnique *)

(** userSchema.statics.checkIfUsernameUnique: [callback] receives
    [err == null && doc != null]. *)
Definition checkIfUsernameUnique_body (username : string) : M unit bool :=
  let q := mkUserQuery None None (Some username) None in
  r <- io (EUserFindOne q) (fun h => user_findOne app h q) ;;
  match r with
  | inl _ => ret false
  | inr (Some _) => ret true
  | inr None => ret false
  end.

Definition checkIfUsernameUnique (username : string) : Outcome bool * History :=
  run tt (checkIfUsernameUnique_body username).

(** *** checkIfUnverified *)

(** The variables a function body sees, innermost function first. *)
Definition Scopes := list (list (string * JsValue)).

(** Evaluating a name: the innermost binding wins, then the global object;
    a name bound nowhere is a ReferenceError. *)
Fixpoint resolve {L} (name : string) (scopes : Scopes) : M L JsValue :=
  match scopes with
  | [] =>
      match global app !! name with
      | Some v => ret v
      | None => throw (ReferenceError name)
      end
  | scope :: outer =>
      match List.find (fun b => String.eqb (fst b) name) scope with
      | Some b => ret (snd b)
      | None => resolve name outer
      end
  end.

(** The variables of [exports.attach]. *)
Definition attach_scope : list (string * JsValue) :=
  [ ("options", VObject "options"); ("app", VObject "app");
    ("_", VObject "underscore"); ("$", VObject "cheerio");
    ("async", VObject "async"); ("check", VFunction "check");
    ("feedparser", VObject "feedparser"); ("mongoose", VObject "mongoose");
    ("uri", VObject "url"); ("userSchema", VObject "userSchema") ].

(** userSchema.statics.checkIfUnverified: the filter is built, so the names
    in it are evaluated, before [findOne] is called. *)
Definition checkIfUnverified_body (user_id_ : ObjectId) : M unit (option Err) :=
  let scopes := [ [ ("user_id", VString user_id_); ("callback", VFunction "callback") ];
                  attach_scope ] in
  id <- resolve "id" scopes ;;
  let q := mkUserQuery (Some id) None None (Some false) in
  r <- io (EUserFindOne q) (fun h => user_findOne app h q) ;;
  match r with
  | inl err => throw (Uncaught err)
  | inr None => ret (Some "User not found or already verified.")
  | inr (Some _) => ret None
  end.

Definition checkIfUnverified (user_id_ : ObjectId) : Outcome (option Err) * History :=
  run tt (checkIfUnverified_body user_id_).

(** *** The cascade after a user document is removed *)

(** A call whose callback is [function() {}]: the call is started and
    nothing waits for it, so what it reports reaches no one and the code
    after it runs before it completes.  The variable of such a computation
    is the list of the calls started and not waited for. *)
Definition fire (ev : Event) : M (list Event) unit :=
  started <- get ;;
  put (started ++ [ev]) ;;;
  emit ev.

(** userSchema.post('remove'): the series has no final callback. *)
Definition post_remove_body (self : User) : M (list Event) unit :=
  _ <- async_series [
    (err <- io (EStateRemove (user_id self)) (fun h => state_remove app h (user_id self)) ;;
     next err);
    (channels <- subscribedChannels self ;;
     for_each channels (fun ch => fire (EChannelUpdateSubscriberCount ch)) ;;;
     next None);
    (emit (ENotifyOnAccountDelete self) ;;; next None)
  ] ;;
  ret tt.

(** The outcome of the cascade, the calls it started and did not wait for,
    and the calls it made. *)
Definition post_remove (self : User) : Outcome unit * list Event * History :=
  run_locals [] (post_remove_body self).

End UserModel.

(** ** Sample collaborators

    [quiet_app] answers every call without an error and finds no document;
    the functions after it replace one collaborator each. *)

Definition sample_feed (url : string) : Feed :=
  mkFeed "Sample feed" "rss" url "example.org".

Definition quiet_app : App := {|
  parseFeed := fun _ url => inr (Some (sample_feed url));
  channel_findOne := fun _ _ => inr None;
  channel_findById := fun _ _ => inr None;
  channel_find := fun _ _ => inr [];
  channel_save := fun _ _ => None;
  channel_crawl := fun _ _ => None;
  channel_updateSubscriberCount := fun _ _ => None;
  list_createFromChannel := fun _ _ _ _ => None;
  list_count := fun _ _ _ => inr 0%nat;
  list_create := fun _ _ => None;
  list_remove := fun _ _ _ => None;
  list_createUserDefaults := fun _ _ => None;
  state_remove := fun _ _ => None;
  user_findOne := fun _ _ => inr None;
  user_save := fun _ _ => None;
  user_create := fun _ _ => None;
  new_ObjectId := fun _ => "507f1f77bcf86cd799439011";
  new_Date := fun _ => mkDate 1350000000000;
  isEmail := fun s => match index 0 "@" s with Some _ => true | None => false end;
  notEmpty := fun s => negb (String.eqb s "");
  global := ∅
|}.

Definition with_parseFeed (f : History -> string -> Err + option Feed) (a : App)
  : App :=
  mkApp f (channel_findOne a) (channel_findById a) (channel_find a)
    (channel_save a) (channel_crawl a) (channel_updateSubscriberCount a)
    (list_createFromChannel a) (list_count a) (list_create a) (list_remove a)
    (list_createUserDefaults a) (state_remove a) (user_findOne a) (user_save a)
    (user_create a) (new_ObjectId a) (new_Date a) (isEmail a) (notEmpty a)
    (global a).

Definition with_channel_findOne (f : History -> string -> Err + option Channel)
  (a : App) : App :=
  mkApp (parseFeed a) f (channel_findById a) (channel_find a)
    (channel_save a) (channel_crawl a) (channel_updateSubscriberCount a)
    (list_createFromChannel a) (list_count a) (list_create a) (list_remove a)
    (list_createUserDefaults a) (state_remove a) (user_findOne a) (user_save a)
    (user_create a) (new_ObjectId a) (new_Date a) (isEmail a) (notEmpty a)
    (global a).

Definition with_channel_findById (f : History -> ObjectId -> Err + option Channel)
  (a : App) : App :=
  mkApp (parseFeed a) (channel_findOne a) f (channel_find a)
    (channel_save a) (channel_crawl a) (channel_updateSubscriberCount a)
    (list_createFromChannel a) (list_count a) (list_create a) (list_remove a)
    (list_createUserDefaults a) (state_remove a) (user_findOne a) (user_save a)
    (user_create a) (new_ObjectId a) (new_Date a) (isEmail a) (notEmpty a)
    (global a).

Definition with_channel_find (f : History -> list ObjectId -> Err + list Channel)
  (a : App) : App :=
  mkApp (parseFeed a) (channel_findOne a) (channel_findById a) f
    (channel_save a) (channel_crawl a) (channel_updateSubscriberCount a)
    (list_createFromChannel a) (list_count a) (list_create a) (list_remove a)
    (list_createUserDefaults a) (state_remove a) (user_findOne a) (user_save a)
    (user_create a) (new_ObjectId a) (new_Date a) (isEmail a) (notEmpty a)
    (global a).

Definition with_channel_save (f : History -> Channel -> option Err) (a : App) : App :=
  mkApp (parseFeed a) (channel_findOne a) (channel_findById a) (channel_find a)
    f (channel_crawl a) (channel_updateSubscriberCount a)
    (list_createFromChannel a) (list_count a) (list_create a) (list_remove a)
    (list_createUserDefaults a) (state_remove a) (user_findOne a) (user_save a)
    (user_create a) (new_ObjectId a) (new_Date a) (isEmail a) (notEmpty a)
    (global a).

Definition with_channel_crawl (f : History -> Channel -> option Err) (a : App) : App :=
  mkApp (parseFeed a) (channel_findOne a) (channel_findById a) (channel_find a)
    (channel_save a) f (channel_updateSubscriberCount a)
    (list_createFromChannel a) (list_count a) (list_create a) (list_remove a)
    (list_createUserDefaults a) (state_remove a) (user_findOne a) (user_save a)
    (user_create a) (new_ObjectId a) (new_Date a) (isEmail a) (notEmpty a)
    (global a).

Definition with_channel_updateSubscriberCount (f : History -> Channel -> option Err)
  (a : App) : App :=
  mkApp (parseFeed a) (channel_findOne a) (channel_findById a) (channel_find a)
    (channel_save a) (channel_crawl a) f
    (list_createFromChannel a) (list_count a) (list_create a) (list_remove a)
    (list_createUserDefaults a) (state_remove a) (user_findOne a) (user_save a)
    (user_create a) (new_ObjectId a) (new_Date a) (isEmail a) (notEmpty a)
    (global a).

Definition with_list_createFromChannel
  (f : History -> ObjectId -> ObjectId -> string -> option Err) (a : App) : App :=
  mkApp (parseFeed a) (channel_findOne a) (channel_findById a) (channel_find a)
    (channel_save a) (channel_crawl a) (channel_updateSubscriberCount a)
    f (list_count a) (list_create a) (list_remove a)
    (list_createUserDefaults a) (state_remove a) (user_findOne a) (user_save a)
    (user_create a) (new_ObjectId a) (new_Date a) (isEmail a) (notEmpty a)
    (global a).

Definition with_list_count (f : History -> ObjectId -> ObjectId -> Err + nat)
  (a : App) : App :=
  mkApp (parseFeed a) (channel_findOne a) (channel_findById a) (channel_find a)
    (channel_save a) (channel_crawl a) (channel_updateSubscriberCount a)
    (list_createFromChannel a) f (list_create a) (list_remove a)
    (list_createUserDefaults a) (state_remove a) (user_findOne a) (user_save a)
    (user_create a) (new_ObjectId a) (new_Date a) (isEmail a) (notEmpty a)
    (global a).

Definition with_user_findOne (f : History -> UserQuery -> Err + option User)
  (a : App) : App :=
  mkApp (parseFeed a) (channel_findOne a) (channel_findById a) (channel_find a)
    (channel_save a) (channel_crawl a) (channel_updateSubscriberCount a)
    (list_createFromChannel a) (list_count a) (list_create a) (list_remove a)
    (list_createUserDefaults a) (state_remove a) f (user_save a)
    (user_create a) (new_ObjectId a) (new_Date a) (isEmail a) (notEmpty a)
    (global a).

Definition alice : User :=
  mkUser "5063114bd386d8fadbd6b004" "alice@example.org" None (mkDate 0) ∅
         (mkDate 0) (mkDate 0) None true.

Definition news : Channel :=
  mkChannel "5063114bd386d8fadbd6b00a" "rss" "http://example.org/feed"
            "example.org" (Some "News")
            [mkItem "first" (mkDate 40); mkItem "second" (mkDate 50)]
            (Some (mkDate 50)).

(** A channel that has never been crawled. *)
Definition fresh_channel : Channel :=
  mkChannel "5063114bd386d8fadbd6b00b" "rss" "http://example.org/new"
            "example.org" None [] None.


(** The feed cannot be fetched, and the user already has a list for the
    channel [news]. *)
Definition feed_down : App :=
  with_parseFeed (fun _ _ => inl "feed unreachable")
    (with_channel_findById (fun _ _ => inr (Some news))
       (with_list_count (fun _ _ _ => inr 1%nat) quiet_app)).

(** The feed parser calls back with neither an error nor a feed. *)
Definition feed_missing : App :=
  with_parseFeed (fun _ _ => inr None) quiet_app.

Definition crawl_down : App :=
  with_channel_crawl (fun _ _ => Some "crawl failed") quiet_app.

Definition save_down : App :=
  with_channel_save (fun _ _ => Some "channel not saved") quiet_app.

Definition list_down : App :=
  with_list_createFromChannel (fun _ _ _ _ => Some "list not saved") quiet_app.

Definition count_down : App :=
  with_channel_updateSubscriberCount (fun _ _ => Some "count not updated") quiet_app.

(** The channels collection holds [coll]: [find({_id: {$in: ids}})] yields
    the documents of [coll] whose id is among [ids], and [findById] the
    first document with that id. *)
Definition has_id (id : ObjectId) (c : Channel) : bool := String.eqb (channel_id c) id.

Definition channels_app (coll : list Channel) : App :=
  with_channel_find
    (fun _ ids => inr (List.filter (fun c => existsb (fun id => has_id id c) ids) coll))
    (with_channel_findById (fun _ id => inr (List.find (has_id id) coll)) quiet_app).

(** The channel query fails. *)
Definition channels_down : App :=
  with_channel_find (fun _ _ => inl "connection lost") quiet_app.

(** Whether a user document satisfies a filter.  The schema has no [name]
    field, so a filter on [name] selects nothing. *)
Definition user_matches (q : UserQuery) (u : User) : bool :=
  match q_id q with
  | Some (VString id) => String.eqb id (user_id u)
  | Some _ => false
  | None => true
  end &&
  match q_mail q with
  | Some m => String.eqb m (mail u)
  | None => true
  end &&
  match q_name q with
  | Some _ => false
  | None => true
  end &&
  match q_verified q with
  | Some b => Bool.eqb b (verified u)
  | None => true
  end.

(** The users collection holds [coll]: [findOne] yields the first document
    that satisfies the filter. *)
Definition users_app (coll : list User) : App :=
  with_user_findOne (fun _ q => inr (List.find (user_matches q) coll)) quiet_app.

(** The hash function of the samples: the text itself. *)
Definition plain_text (s : string) : string := s.

Definition bob : User :=
  mkUser "5063114bd386d8fadbd6b005" "bob@example.org"
         (Some "lwearGYw3p295063114bd386d8fadbd6b005secret1") (mkDate 0) ∅
         (mkDate 0) (mkDate 0) None true.

(** A user who signed up and has not verified the address. *)
Definition carol : User :=
  mkUser "5063114bd386d8fadbd6b006" "carol@example.org"
         (Some "lwearGYw3p295063114bd386d8fadbd6b006secret2") (mkDate 0) ∅
         (mkDate 0) (mkDate 0) (Some "0a1b2c") false.

(** What [signup] creates with the sample collaborators. *)
Definition newcomer : User :=
  mkUser "507f1f77bcf86cd799439011" "a@x.com"
         (Some "lwearGYw3p29507f1f77bcf86cd799439011secret1")
         (mkDate 1350000000000) ∅ (mkDate 1350000000000) (mkDate 1350000000000)
         (Some "qwmi39ds1350000000000") false.

(** What [findOrCreate] creates with the sample collaborators. *)
Definition guest : User :=
  mkUser "507f1f77bcf86cd799439011" "guest@x.com" None
         (mkDate 1350000000000) ∅ (mkDate 1350000000000) (mkDate 1350000000000)
         None true.

(** A user subscribed to both sample channels. *)
Definition dave : User :=
  mkUser "5063114bd386d8fadbd6b007" "dave@example.org" None (mkDate 0)
         {[ channel_id news := "News"; channel_id fresh_channel := "New" ]}
         (mkDate 0) (mkDate 0) None true.

(** ** Vocabulary of the properties *)

Definition is_notification (ev : Event) : bool :=
  match ev with
  | ENotifyOnSubscribe _ _ | ENotifyOnUnSubscribe _ _ | ENotifyOnActivate _
  | ENotifyOnSignup _ | ENotifyOnAccountDelete _ => true
  | _ => false
  end.

(** The calls of a run that are steps of the workflow, notifications left
    out. *)
Definition workflow_calls (h : History) : History :=
  List.filter (fun ev => negb (is_notification ev)) h.

(** [resolves app h f ch calls]: after the calls [h], the channel resolution
    step for the feed [f] succeeds with the calls [calls] and settles on the
    channel [ch], either the document found by its url or a new one that was
    saved. *)
Inductive resolves (app : App) (h : History) (f : Feed) : Channel -> History -> Prop :=
| resolves_found doc :
    channel_findOne app h (feed_url f) = inr (Some doc) ->
    resolves app h f doc [EChannelFindOne (feed_url f)]
| resolves_created :
    (forall doc, channel_findOne app h (feed_url f) <> inr (Some doc)) ->
    channel_save app (h ++ [EChannelFindOne (feed_url f)])
      (new_channel (new_ObjectId app (h ++ [EChannelFindOne (feed_url f)])) f) = None ->
    resolves app h f
      (new_channel (new_ObjectId app (h ++ [EChannelFindOne (feed_url f)])) f)
      [EChannelFindOne (feed_url f);
       EChannelSave (new_channel (new_ObjectId app (h ++ [EChannelFindOne (feed_url f)])) f)].

(** [serverTime] of the specification: the time of the last crawl that
    added items, 0 for a channel never crawled. *)
Definition server_time (ch : Channel) : Z :=
  match items_added ch with
  | Some d => getTime d
  | None => 0
  end.

(** The channel has items the client has not seen. *)
Definition dirty (state : gmap string Z) (ch : Channel) : bool :=
  later_than (server_time ch) (state !! channel_id ch).

(** The entry reported for a dirty channel. *)
Definition update_of (ch : Channel) : ChannelUpdate :=
  mkChannelUpdate (channel_id ch) (server_time ch) (created_to_epoch (items ch)).

(** The answers of [findOne] on the users collection come from [coll]:
    each is an error or the first document that satisfies the filter. *)
Definition users_collection (app : App) (coll : list User) : Prop :=
  forall h q,
    match user_findOne app h q with
    | inl _ => True
    | inr doc => doc = List.find (user_matches q) coll
    end.

(** The user documents that [signup], [findOrCreate] and [activate] give
    rise to; [findOrCreate] may hand out a document of the collection, which
    holds documents that arose the same way. *)
Inductive reachable (sha1_hex : string -> string) : User -> Prop :=
| reachable_signup app data u h :
    signup app sha1_hex data = (Returned (None, Some u), h) ->
    reachable sha1_hex u
| reachable_findOrCreate app m err u h :
    (forall h' q doc, user_findOne app h' q = inr (Some doc) -> reachable sha1_hex doc) ->
    findOrCreate app m = (Returned (err, Some u), h) ->
    reachable sha1_hex u
| reachable_activate app u err u' h :
    reachable sha1_hex u ->
    activate app u = (Returned err, u', h) ->
    reachable sha1_hex u'.

(** The watermarks of a client that has taken in [updates]: for every
    reported channel the [items_added] it was reported with, the former
    watermark for the others. *)
Definition acknowledge (state : gmap string Z) (updates : list ChannelUpdate)
  : gmap string Z :=
  foldr (fun u m => <[upd_id u := upd_items_added u]> m) state updates.

(** The global object defines [id]. *)
Definition global_id_app : App :=
  mkApp (parseFeed quiet_app) (channel_findOne quiet_app)
    (channel_findById quiet_app) (channel_find quiet_app)
    (channel_save quiet_app) (channel_crawl quiet_app)
    (channel_updateSubscriberCount quiet_app)
    (list_createFromChannel quiet_app) (list_count quiet_app)
    (list_create quiet_app) (list_remove quiet_app)
    (list_createUserDefaults quiet_app) (state_remove quiet_app)
    (fun _ q => inr (List.find (user_matches q) [bob; carol]))
    (user_save quiet_app) (user_create quiet_app) (new_ObjectId quiet_app)
    (new_Date quiet_app) (isEmail quiet_app) (notEmpty quiet_app)
    {[ "id" := VString (user_id carol) ]}.

(** Saving a user document fails. *)
Definition user_save_down : App :=
  mkApp (parseFeed quiet_app) (channel_findOne quiet_app)
    (channel_findById quiet_app) (channel_find quiet_app)
    (channel_save quiet_app) (channel_crawl quiet_app)
    (channel_updateSubscriberCount quiet_app)
    (list_createFromChannel quiet_app) (list_count quiet_app)
    (list_create quiet_app) (list_remove quiet_app)
    (list_createUserDefaults quiet_app) (state_remove quiet_app)
    (user_findOne quiet_app)
    (fun _ _ => Some "user not saved") (fun _ _ => Some "user not created")
    (new_ObjectId quiet_app)
    (new_Date quiet_app) (isEmail quiet_app) (notEmpty quiet_app)
    (global quiet_app).

(** Creating a list fails. *)
Definition list_create_down : App :=
  mkApp (parseFeed quiet_app) (channel_findOne quiet_app)
    (fun _ id => inr (List.find (has_id id) [news; fresh_channel]))
    (channel_find quiet_app)
    (channel_save quiet_app) (channel_crawl quiet_app)
    (channel_updateSubscriberCount quiet_app)
    (list_createFromChannel quiet_app) (list_count quiet_app)
    (fun _ _ => Some "list not saved") (list_remove quiet_app)
    (list_createUserDefaults quiet_app) (state_remove quiet_app)
    (user_findOne quiet_app) (user_save quiet_app) (user_create quiet_app)
    (new_ObjectId quiet_app)
    (new_Date quiet_app) (isEmail quiet_app) (notEmpty quiet_app)
    (global quiet_app).

(** Neither the removal of a list nor the update of a counter works. *)
Definition lists_down : App :=
  mkApp (parseFeed quiet_app) (channel_findOne quiet_app)
    (fun _ id => inr (List.find (has_id id) [news; fresh_channel]))
    (channel_find quiet_app)
    (channel_save quiet_app) (channel_crawl quiet_app)
    (fun _ _ => Some "count not updated")
    (list_createFromChannel quiet_app) (list_count quiet_app)
    (list_create quiet_app) (fun _ _ _ => Some "list not removed")
    (list_createUserDefaults quiet_app) (state_remove quiet_app)
    (user_findOne quiet_app) (user_save quiet_app) (user_create quiet_app)
    (new_ObjectId quiet_app)
    (new_Date quiet_app) (isEmail quiet_app) (notEmpty quiet_app)
    (global quiet_app).

(** ** Properties *)

(** Unfolding a run down to the answers of the collaborators. *)
Ltac js_unfold :=
  cbv [subscribe subscribeToChannel unsubscribe getChannelUpdates activate
       findOrCreate signup authenticate checkIfUnverified post_remove
       subscribe_body subscribeToChannel_body unsubscribe_body
       getChannelUpdates_body activate_body findOrCreate_body signup_body
       authenticate_body checkIfUnverified_body post_remove_body
       subscribe_parse subscribe_resolve subscribe_crawl subscribe_list
       subscribe_count subscribedChannels set_feed set_channel
       run run_locals async_series bind ret throw get put io peek emit deref
       fire next locals history channel feed].

Ltac js_run := js_unfold; cbn [List.app].

(** One more answer of a collaborator, given by [H]. *)
Ltac js_answer H := rewrite H; js_run.

(** *** Keys *)

(** [keys] lists exactly the keys of the object. *)
Lemma keys_spec {V} (o : gmap string V) (k : string) :
  In k (keys o) <-> is_Some (o !! k).
Proof.
  unfold keys. rewrite <- list_elem_of_In, list_elem_of_fmap. split.
  - intros ([k' v] & -> & Hkv). apply elem_of_map_to_list in Hkv. eauto.
  - intros [v Hv]. exists (k, v). split; [reflexivity |].
    now apply elem_of_map_to_list.
Qed.

(** *** async.series *)

(** A task that reports an error ends the series: the tasks after it are
    not run, and the state is the one that task left. *)
Lemma async_series_error {L} (task : M L (option Err)) rest s e s' :
  task s = (Returned (Some e), s') ->
  async_series (task :: rest) s = (Returned (Some e), s').
Proof. intros H. cbn. unfold bind. now rewrite H. Qed.

(** Tasks that report no error hand over to the tasks after them. *)
Lemma async_series_app {L} (tasks rest : list (M L (option Err))) s s' :
  async_series tasks s = (Returned None, s') ->
  async_series (tasks ++ rest) s = async_series rest s'.
Proof.
  revert s. induction tasks as [| task tasks IH]; intros s.
  - cbn. now intros [= <-].
  - cbn. unfold bind. destruct (task s) as [[[e |] | x] s1]; try discriminate.
    apply IH.
Qed.

(** *** Subscribe notifications *)

(** C1. The specification asks that the subscribe notification be emitted only when
    every step of the workflow succeeded.  The code emits it from the final
    callback of the series without looking at the error: when
    [app.parseFeed] fails, [subscribe] hands the error to its caller and
    still calls [notify.onSubscribe], with no channel; when the user is
    already subscribed, [subscribeToChannel] reports that and still calls
    [notify.onSubscribe]. *)
Theorem subscribe_notifies_on_failure (app : App) (self : User) (url : string)
    (cid : ObjectId) :
  (forall e, parseFeed app [] url = inl e ->
     subscribe app self url =
       (Returned (Some e, None), [EParseFeed url; ENotifyOnSubscribe self None])) /\
  (forall ch n,
     channel_findById app [] cid = inr ch ->
     list_count app [EChannelFindById cid] (user_id self) cid = inr (S n) ->
     subscribeToChannel app self cid =
       (Returned (Some "You are already subscribed to this site.", ch),
        [EChannelFindById cid; EListCount (user_id self) cid;
         ENotifyOnSubscribe self ch])).
Proof.
  split.
  - intros e He. js_run. js_answer He. reflexivity.
  - intros ch n Hch Hn. js_run. js_answer Hch. js_answer Hn. reflexivity.
Qed.

Lemma subscribe_notifies_on_failure_witness :
  subscribe feed_down alice "http://example.org/feed" =
    (Returned (Some "feed unreachable", None),
     [EParseFeed "http://example.org/feed"; ENotifyOnSubscribe alice None]) /\
  subscribeToChannel feed_down alice (channel_id news) =
    (Returned (Some "You are already subscribed to this site.", Some news),
     [EChannelFindById (channel_id news);
      EListCount (user_id alice) (channel_id news);
      ENotifyOnSubscribe alice (Some news)]).
Proof.
  destruct (subscribe_notifies_on_failure feed_down alice
              "http://example.org/feed" (channel_id news)) as [Hurl Hid].
  split.
  - apply Hurl. reflexivity.
  - apply (Hid (Some news) 0%nat); reflexivity.
Defined.

(** Unless [app.parseFeed] calls back with neither an error nor a feed,
    every run of [subscribe] hands a result to its caller, and every such
    run has called [notify.onSubscribe], whether the result carries an error
    or not. *)
Lemma subscribe_always_notifies (app : App) (self : User) (url : string) :
  parseFeed app [] url <> inr None ->
  exists err ch h,
    subscribe app self url = (Returned (err, ch), h) /\
    In (ENotifyOnSubscribe self ch) h.
Proof.
  intros Hfeed. js_run.
  destruct (parseFeed app [] url) as [e | [f |]]; [ | | now destruct Hfeed]; js_run.
  { eexists _, _, _. split; [reflexivity | cbn; tauto]. }
  destruct (channel_findOne app _ _) as [e | [doc |]]; js_run;
    try (destruct (channel_save app _ _) as [e' |]; js_run);
    try (destruct (list_createFromChannel app _ _ _ _) as [e2 |]; js_run);
    try (destruct (channel_updateSubscriberCount app _ _) as [e3 |]; js_run);
    eexists _, _, _; (split; [reflexivity | cbn; tauto]).
Qed.

(** The feed resolves to a channel that is already known: no channel is
    saved, and the counter is updated once. *)
Example subscribe_known_channel :
  subscribe (with_channel_findOne (fun _ _ => inr (Some news)) quiet_app) alice
            "http://example.org/feed" =
    (Returned (None, Some news),
     [EParseFeed "http://example.org/feed";
      EChannelFindOne "http://example.org/feed";
      EChannelCrawl news;
      EListCreateFromChannel (user_id alice) (channel_id news) "Sample feed";
      EChannelUpdateSubscriberCount news;
      ENotifyOnSubscribe alice (Some news)]).
Proof. reflexivity. Qed.

(** The lookup of the channel by url fails: the step goes on as if no
    channel had that url, and saves a new one. *)
Example subscribe_lookup_failure :
  let url := "http://example.org/feed" in
  let ch := new_channel "507f1f77bcf86cd799439011" (sample_feed url) in
  subscribe (with_channel_findOne (fun _ _ => inl "lookup failed") quiet_app) alice url =
    (Returned (None, Some ch),
     [EParseFeed url; EChannelFindOne url; EChannelSave ch; EChannelCrawl ch;
      EListCreateFromChannel (user_id alice) (channel_id ch) "Sample feed";
      EChannelUpdateSubscriberCount ch; ENotifyOnSubscribe alice (Some ch)]).
Proof. reflexivity. Qed.

(** A channel id that no document has, and no list yet: building the list
    document reads the title of the missing channel. *)
Example subscribeToChannel_missing_channel :
  subscribeToChannel quiet_app alice (channel_id news) =
    (Threw (TypeError "channel"),
     [EChannelFindById (channel_id news);
      EListCount (user_id alice) (channel_id news)]).
Proof. reflexivity. Qed.

(** *** Errors in subscribe *)

(** The crawl step fails, and the series goes on as if it had not: the list
    is created, the counter updated, and no error reaches the caller. *)
Lemma subscribe_crawl_failure_ignored :
  let url := "http://example.org/feed" in
  let ch := new_channel "507f1f77bcf86cd799439011" (sample_feed url) in
  channel_crawl crawl_down [EParseFeed url; EChannelFindOne url; EChannelSave ch] ch
    = Some "crawl failed" /\
  subscribe crawl_down alice url =
    (Returned (None, Some ch),
     [EParseFeed url; EChannelFindOne url; EChannelSave ch; EChannelCrawl ch;
      EListCreateFromChannel (user_id alice) (channel_id ch) "Sample feed";
      EChannelUpdateSubscriberCount ch; ENotifyOnSubscribe alice (Some ch)]).
Proof. split; reflexivity. Qed.

(** C5, amended.  In [subscribe], a failure of the feed parse, of saving a
    new channel, of the list creation or of the counter update ends the
    series: no later step is called, and the caller receives the error of
    that step (the one reported by the parse or the save, the fixed message
    of the list creation or of the counter update).  The calls made before
    the failure stand, a saved channel among them: nothing is undone.  What
    the crawl reports is ignored, so the crawl never ends the series. *)
Theorem subscribe_first_error_aborts (app : App) (self : User) (url : string) :
  (forall e,
     parseFeed app [] url = inl e ->
     exists h, subscribe app self url = (Returned (Some e, None), h) /\
               workflow_calls h = [EParseFeed url]) /\
  (forall f e,
     parseFeed app [] url = inr (Some f) ->
     (forall doc, channel_findOne app [EParseFeed url] (feed_url f) <> inr (Some doc)) ->
     let ch := new_channel
                 (new_ObjectId app [EParseFeed url; EChannelFindOne (feed_url f)]) f in
     channel_save app [EParseFeed url; EChannelFindOne (feed_url f)] ch = Some e ->
     exists h, subscribe app self url = (Returned (Some e, Some ch), h) /\
               workflow_calls h =
                 [EParseFeed url; EChannelFindOne (feed_url f); EChannelSave ch]) /\
  (forall f ch calls e,
     parseFeed app [] url = inr (Some f) ->
     resolves app [EParseFeed url] f ch calls ->
     list_createFromChannel app (EParseFeed url :: calls ++ [EChannelCrawl ch])
       (user_id self) (channel_id ch) (feed_title f) = Some e ->
     exists h, subscribe app self url =
                 (Returned (Some "Could not update user subscription.", Some ch), h) /\
               workflow_calls h =
                 EParseFeed url :: calls ++
                 [EChannelCrawl ch;
                  EListCreateFromChannel (user_id self) (channel_id ch) (feed_title f)]) /\
  (forall f ch calls e,
     parseFeed app [] url = inr (Some f) ->
     resolves app [EParseFeed url] f ch calls ->
     list_createFromChannel app (EParseFeed url :: calls ++ [EChannelCrawl ch])
       (user_id self) (channel_id ch) (feed_title f) = None ->
     channel_updateSubscriberCount app
       (EParseFeed url :: calls ++
        [EChannelCrawl ch;
         EListCreateFromChannel (user_id self) (channel_id ch) (feed_title f)]) ch
       = Some e ->
     exists h, subscribe app self url =
                 (Returned (Some "Could not increment subscribers.", Some ch), h) /\
               workflow_calls h =
                 EParseFeed url :: calls ++
                 [EChannelCrawl ch;
                  EListCreateFromChannel (user_id self) (channel_id ch) (feed_title f);
                  EChannelUpdateSubscriberCount ch]) /\
  (forall f ch calls,
     parseFeed app [] url = inr (Some f) ->
     resolves app [EParseFeed url] f ch calls ->
     list_createFromChannel app (EParseFeed url :: calls ++ [EChannelCrawl ch])
       (user_id self) (channel_id ch) (feed_title f) = None ->
     channel_updateSubscriberCount app
       (EParseFeed url :: calls ++
        [EChannelCrawl ch;
         EListCreateFromChannel (user_id self) (channel_id ch) (feed_title f)]) ch
       = None ->
     exists h, subscribe app self url = (Returned (None, Some ch), h) /\
               workflow_calls h =
                 EParseFeed url :: calls ++
                 [EChannelCrawl ch;
                  EListCreateFromChannel (user_id self) (channel_id ch) (feed_title f);
                  EChannelUpdateSubscriberCount ch]).
Proof.
  repeat split.
  - intros e He. js_run. js_answer He. eexists; split; reflexivity.
  - intros f e Hf Hnone ch Hsave. subst ch. js_run. js_answer Hf.
    destruct (channel_findOne app [EParseFeed url] (feed_url f)) as [x | [doc |]] eqn:Hfind;
      [ | now destruct (Hnone doc) | ];
      js_run; js_answer Hsave; eexists; split; reflexivity.
  - intros f ch calls e Hf Hres Hlist. js_run. js_answer Hf.
    destruct Hres as [doc Hfind | Hnone Hsave]; cbn [List.app] in *.
    + js_answer Hfind. js_answer Hlist. eexists; split; reflexivity.
    + destruct (channel_findOne app [EParseFeed url] (feed_url f)) as [x | [doc |]] eqn:Hfind;
        [ | now destruct (Hnone doc) | ];
        js_run; js_answer Hsave; js_answer Hlist; eexists; split; reflexivity.
  - intros f ch calls e Hf Hres Hlist Hcount. js_run. js_answer Hf.
    destruct Hres as [doc Hfind | Hnone Hsave]; cbn [List.app] in *.
    + js_answer Hfind. js_answer Hlist. js_answer Hcount.
      eexists; split; reflexivity.
    + destruct (channel_findOne app [EParseFeed url] (feed_url f)) as [x | [doc |]] eqn:Hfind;
        [ | now destruct (Hnone doc) | ];
        js_run; js_answer Hsave; js_answer Hlist; js_answer Hcount;
        eexists; split; reflexivity.
  - intros f ch calls Hf Hres Hlist Hcount. js_run. js_answer Hf.
    destruct Hres as [doc Hfind | Hnone Hsave]; cbn [List.app] in *.
    + js_answer Hfind. js_answer Hlist. js_answer Hcount.
      eexists; split; reflexivity.
    + destruct (channel_findOne app [EParseFeed url] (feed_url f)) as [x | [doc |]] eqn:Hfind;
        [ | now destruct (Hnone doc) | ];
        js_run; js_answer Hsave; js_answer Hlist; js_answer Hcount;
        eexists; split; reflexivity.
Qed.

Lemma subscribe_first_error_aborts_witness :
  let url := "http://example.org/feed" in
  let f := sample_feed url in
  let ch := new_channel "507f1f77bcf86cd799439011" f in
  let resolved := [EParseFeed url; EChannelFindOne url; EChannelSave ch] in
  let listed := EListCreateFromChannel (user_id alice) (channel_id ch) "Sample feed" in
  (exists h, subscribe feed_down alice url =
               (Returned (Some "feed unreachable", None), h) /\
             workflow_calls h = [EParseFeed url]) /\
  (exists h, subscribe save_down alice url =
               (Returned (Some "channel not saved", Some ch), h) /\
             workflow_calls h = resolved) /\
  (exists h, subscribe list_down alice url =
               (Returned (Some "Could not update user subscription.", Some ch), h) /\
             workflow_calls h = resolved ++ [EChannelCrawl ch; listed]) /\
  (exists h, subscribe count_down alice url =
               (Returned (Some "Could not increment subscribers.", Some ch), h) /\
             workflow_calls h =
               resolved ++ [EChannelCrawl ch; listed; EChannelUpdateSubscriberCount ch]) /\
  (exists h, subscribe crawl_down alice url = (Returned (None, Some ch), h) /\
             workflow_calls h =
               resolved ++ [EChannelCrawl ch; listed; EChannelUpdateSubscriberCount ch]).
Proof.
  intros url f ch resolved listed.
  assert (Hres : forall app,
             channel_findOne app [EParseFeed url] (feed_url f) = inr None ->
             channel_save app [EParseFeed url; EChannelFindOne url] ch = None ->
             new_ObjectId app [EParseFeed url; EChannelFindOne url]
               = "507f1f77bcf86cd799439011" ->
             resolves app [EParseFeed url] f ch
               [EChannelFindOne url; EChannelSave ch]).
  { intros app Hfind Hsave Hid.
    pose proof (resolves_created app [EParseFeed url] f) as R.
    cbn [List.app] in R. change (feed_url f) with url in R.
    rewrite Hid in R. apply R.
    - intros doc Hdoc. change (feed_url f) with url in Hfind.
      rewrite Hfind in Hdoc. discriminate Hdoc.
    - exact Hsave. }
  split; [ | split; [ | split; [ | split ] ] ].
  - apply (proj1 (subscribe_first_error_aborts feed_down alice url)).
    reflexivity.
  - apply (proj1 (proj2 (subscribe_first_error_aborts save_down alice url)) f).
    + reflexivity.
    + intros doc Hdoc. discriminate Hdoc.
    + reflexivity.
  - apply (proj1 (proj2 (proj2 (subscribe_first_error_aborts list_down alice url)))
             f ch [EChannelFindOne url; EChannelSave ch] "list not saved").
    + reflexivity.
    + apply Hres; reflexivity.
    + reflexivity.
  - apply (proj1 (proj2 (proj2 (proj2
             (subscribe_first_error_aborts count_down alice url))))
             f ch [EChannelFindOne url; EChannelSave ch] "count not updated").
    + reflexivity.
    + apply Hres; reflexivity.
    + reflexivity.
    + reflexivity.
  - apply (proj2 (proj2 (proj2 (proj2
             (subscribe_first_error_aborts crawl_down alice url))))
             f ch [EChannelFindOne url; EChannelSave ch]).
    + reflexivity.
    + apply Hres; reflexivity.
    + reflexivity.
    + reflexivity.
Defined.

(** *** unsubscribe *)

(** When the channel is found, [unsubscribe] removes the list, updates the
    counter, notifies and calls back without an error, whatever the removal
    and the counter update report: removing a list that does not exist is
    not an error. *)
Lemma unsubscribe_channel_found (app : App) (self : User) (cid : ObjectId) doc :
  channel_findById app [EListRemove (user_id self) cid] cid = inr (Some doc) ->
  unsubscribe app self cid =
    (Returned tt,
     [EListRemove (user_id self) cid; EChannelFindById cid;
      EChannelUpdateSubscriberCount doc; ENotifyOnUnSubscribe self (Some doc)]).
Proof. intros Hdoc. js_run. js_answer Hdoc. reflexivity. Qed.

(** C3.  The specification asks that [unsubscribe] surface no error when the channel
    cannot be loaded.  The code calls [channel.updateSubscriberCount] on
    whatever [findById] yields: when there is no document, the list has been
    removed and the counter is left alone, but a TypeError is thrown, and
    neither the notification nor the callback of the caller is reached. *)
Theorem unsubscribe_missing_channel_throws (app : App) (self : User) (cid : ObjectId) :
  (forall doc, channel_findById app [EListRemove (user_id self) cid] cid
                 <> inr (Some doc)) ->
  unsubscribe app self cid =
    (Threw (TypeError "channel"),
     [EListRemove (user_id self) cid; EChannelFindById cid]).
Proof.
  intros Hnone. js_run.
  destruct (channel_findById app [EListRemove (user_id self) cid] cid)
    as [e | [doc |]]; [ | now destruct (Hnone doc) | ]; reflexivity.
Qed.

Lemma unsubscribe_missing_channel_throws_witness :
  unsubscribe quiet_app alice (channel_id news) =
    (Threw (TypeError "channel"),
     [EListRemove (user_id alice) (channel_id news);
      EChannelFindById (channel_id news)]).
Proof.
  apply unsubscribe_missing_channel_throws.
  intros doc Hdoc. vm_compute in Hdoc. discriminate Hdoc.
Defined.

(** *** The cascade after a removal *)

(** A loop that starts one call per element starts them in the order of
    the list, whatever the calls report, and runs to its end. *)
Lemma for_each_fire {A} (call : A -> Event) (xs : list A) (s : Machine (list Event)) :
  for_each xs (fun x => fire (call x)) s =
    (Returned tt,
     mkMachine (locals s ++ map call xs) (history s ++ map call xs)).
Proof.
  revert s. induction xs as [| x rest IH]; intros [l h].
  - cbn. now rewrite !app_nil_r.
  - cbn [for_each]. unfold bind at 1.
    change (fire (call x) (mkMachine l h))
      with (Returned tt, mkMachine (l ++ [call x]) (h ++ [call x])).
    cbv beta iota. rewrite IH. cbn. now rewrite <- !app_assoc.
Qed.

(** The account of a user with two subscriptions is removed: the update of
    both subscriber counts has been started, nothing has waited for either,
    and the account-deletion notification has already been emitted. *)
Lemma post_remove_notifies_before_updates_complete :
  post_remove (channels_app [news; fresh_channel]) dave =
    (Returned tt,
     [EChannelUpdateSubscriberCount news;
      EChannelUpdateSubscriberCount fresh_channel],
     [EStateRemove (user_id dave); EChannelFind (keys (subscriptions dave));
      EChannelUpdateSubscriberCount news;
      EChannelUpdateSubscriberCount fresh_channel;
      ENotifyOnAccountDelete dave]).
Proof. vm_compute. reflexivity. Qed.

(** C9, amended.  The cascade first removes the read state and waits for
    it; when that fails nothing else is called.  Then it queries the
    channels whose ids are the keys of the subscriptions of the user, each
    once, and starts the update of the subscriber count of each channel
    found, in the order of the query result, without waiting for any of
    them: what an update reports reaches no one and cannot keep the others
    from being started.  The account-deletion notification is emitted after
    the last update has been started, while all of them are still under
    way. *)
Theorem post_remove_order (app : App) (self : User) :
  let uid := user_id self in
  let ids := keys (subscriptions self) in
  (forall id, In id ids <-> is_Some (subscriptions self !! id)) /\
  NoDup ids /\
  post_remove app self =
    match state_remove app [] uid with
    | Some _ => (Returned tt, [], [EStateRemove uid])
    | None =>
        match channel_find app [EStateRemove uid] ids with
        | inl e => (Threw (Uncaught e), [], [EStateRemove uid; EChannelFind ids])
        | inr channels =>
            (Returned tt,
             map EChannelUpdateSubscriberCount channels,
             [EStateRemove uid; EChannelFind ids]
             ++ map EChannelUpdateSubscriberCount channels
             ++ [ENotifyOnAccountDelete self])
        end
    end.
Proof.
  intros uid ids. split; [intros id; apply keys_spec |].
  split; [apply NoDup_fst_map_to_list |].
  subst uid ids. js_run.
  destruct (state_remove app [] (user_id self)) as [e |]; [reflexivity |].
  js_run.
  destruct (channel_find app [EStateRemove (user_id self)]
              (keys (subscriptions self))) as [e | channels]; [reflexivity |].
  change (for_each channels _)
    with (for_each channels (fun ch => fire (EChannelUpdateSubscriberCount ch))).
  rewrite for_each_fire. reflexivity.
Qed.

(** Every update of a subscriber count fails, and every channel is still
    visited before the notification. *)
Example post_remove_failed_updates :
  let app := with_channel_updateSubscriberCount (fun _ _ => Some "count not updated")
               (channels_app [news; fresh_channel]) in
  snd (post_remove app dave) =
    [EStateRemove (user_id dave); EChannelFind (keys (subscriptions dave));
     EChannelUpdateSubscriberCount news;
     EChannelUpdateSubscriberCount fresh_channel;
     ENotifyOnAccountDelete dave].
Proof. vm_compute. reflexivity. Qed.

(** *** checkIfUnverified *)

(** C10.  The filter of [checkIfUnverified] names [id], which neither the
    function nor [exports.attach] binds (the parameter is [user_id]): unless
    the global object defines [id], every call throws a ReferenceError
    before [findOne] is called, so the callback is never reached and the
    check never succeeds. *)
Theorem checkIfUnverified_never_succeeds (app : App) (uid : ObjectId) :
  global app !! "id" = None ->
  checkIfUnverified app uid = (Threw (ReferenceError "id"), []).
Proof.
  intros Hglobal. js_unfold. cbn. rewrite Hglobal. reflexivity.
Qed.

Lemma checkIfUnverified_never_succeeds_witness :
  checkIfUnverified quiet_app "5063114bd386d8fadbd6b004"
    = (Threw (ReferenceError "id"), []).
Proof. apply checkIfUnverified_never_succeeds. reflexivity. Defined.

(** *** getChannelUpdates *)

(** The three ways the body of the loop can go. *)
Lemma collect_update_clean state ch (s : Machine (list ChannelUpdate)) :
  dirty state ch = false ->
  collect_update state ch s = (Returned tt, s).
Proof.
  unfold dirty, server_time, collect_update. intros H. now rewrite H.
Qed.

Lemma collect_update_dirty state ch d (s : Machine (list ChannelUpdate)) :
  dirty state ch = true ->
  items_added ch = Some d ->
  collect_update state ch s =
    (Returned tt, mkMachine (locals s ++ [update_of ch]) (history s)).
Proof.
  unfold dirty, update_of, server_time, collect_update. intros H Hd.
  rewrite H, Hd. reflexivity.
Qed.

Lemma collect_update_throws state ch (s : Machine (list ChannelUpdate)) :
  dirty state ch = true ->
  items_added ch = None ->
  collect_update state ch s = (Threw (TypeError "items_added"), s).
Proof.
  unfold dirty, server_time, collect_update. intros H Hd.
  rewrite H, Hd. reflexivity.
Qed.

(** A number is earlier than [time] as a date when it is within the range
    of [Date] and less than [time]. *)
Lemma later_than_spec (time w : Z) :
  later_than time (Some w) = true <->
  - 8640000000000000 <= w <= 8640000000000000 /\ w < time.
Proof.
  unfold later_than, max_time.
  destruct (Z.leb_spec (Z.abs w) 8640000000000000) as [Hin | Hout].
  - rewrite Z.ltb_lt. lia.
  - split; [discriminate | lia].
Qed.

(** A channel never crawled is dirty exactly when its watermark is a
    negative number within the range of [Date]. *)
Lemma dirty_never_crawled state ch :
  items_added ch = None ->
  dirty state ch = true <->
  exists w, state !! channel_id ch = Some w /\ - 8640000000000000 <= w < 0.
Proof.
  intros Hd. unfold dirty, server_time. rewrite Hd.
  destruct (state !! channel_id ch) as [w |].
  - rewrite later_than_spec. split.
    + intros [Hrange Hneg]. exists w. split; [reflexivity | lia].
    + intros (w' & [= <-] & Hw). lia.
  - split; [discriminate | now intros (w' & [=] & _)].
Qed.

(** The loop makes no call, and what it adds to [updates] are entries of
    dirty channels of the query result. *)
Lemma for_each_collect_update state results :
  forall (s s' : Machine (list ChannelUpdate)) o,
    for_each results (collect_update state) s = (o, s') ->
    history s' = history s /\
    exists added,
      locals s' = locals s ++ added /\
      Forall (fun u => exists ch, In ch results /\ dirty state ch = true /\
                                  u = update_of ch) added.
Proof.
  induction results as [| ch rest IH]; intros s s' o Hrun.
  - cbn in Hrun. injection Hrun as <- <-. split; [reflexivity |].
    exists []. now rewrite app_nil_r.
  - cbn [for_each] in Hrun. unfold bind at 1 in Hrun.
    destruct (dirty state ch) eqn:Hdirty.
    + destruct (items_added ch) as [d |] eqn:Hd.
      * rewrite (collect_update_dirty _ _ d) in Hrun by assumption.
        apply IH in Hrun as (Hh & added & Hl & Hall). cbn in Hh, Hl.
        split; [exact Hh |]. exists (update_of ch :: added). split.
        -- rewrite Hl, <- app_assoc. reflexivity.
        -- constructor.
           ++ exists ch. cbn. auto.
           ++ eapply Forall_impl; [exact Hall |].
              intros u (c & Hin & Hc & Hu). exists c. cbn. auto.
      * rewrite collect_update_throws in Hrun by assumption.
        injection Hrun as <- <-. split; [reflexivity |].
        exists []. now rewrite app_nil_r.
    + rewrite collect_update_clean in Hrun by assumption.
      apply IH in Hrun as (Hh & added & Hl & Hall).
      split; [exact Hh |]. exists added. split; [exact Hl |].
      eapply Forall_impl; [exact Hall |].
      intros u (c & Hin & Hc & Hu). exists c. cbn. auto.
Qed.

(** When no dirty channel of the query result lacks [items_added], the loop
    runs to its end and adds the entries of the dirty channels, in the order
    of the query result. *)
Lemma for_each_collect_update_crawled state results :
  Forall (fun ch => dirty state ch = true -> items_added ch <> None) results ->
  forall s : Machine (list ChannelUpdate),
    for_each results (collect_update state) s =
      (Returned tt,
       mkMachine (locals s ++ map update_of (List.filter (dirty state) results))
                 (history s)).
Proof.
  induction 1 as [| ch rest Hch _ IH]; intros [l h].
  - cbn. now rewrite app_nil_r.
  - cbn [for_each List.filter]. unfold bind at 1.
    destruct (dirty state ch) eqn:Hdirty.
    + destruct (items_added ch) as [d |] eqn:Hd; [| now destruct Hch].
      rewrite (collect_update_dirty _ _ d) by assumption.
      rewrite IH. cbn. now rewrite <- app_assoc.
    + rewrite collect_update_clean by assumption. apply IH.
Qed.

(** A dirty channel without [items_added] in the query result makes the
    loop throw. *)
Lemma for_each_collect_update_throws state results ch :
  In ch results ->
  dirty state ch = true ->
  items_added ch = None ->
  forall s : Machine (list ChannelUpdate),
    exists l, for_each results (collect_update state) s =
                (Threw (TypeError "items_added"), mkMachine l (history s)).
Proof.
  intros Hin Hdirty Hd.
  induction results as [| x rest IH]; [destruct Hin |]; intros [l h].
  cbn [for_each]. unfold bind at 1.
  destruct (dirty state x) eqn:Hx.
  - destruct (items_added x) as [d |] eqn:Hxd.
    + rewrite (collect_update_dirty _ _ d) by assumption.
      destruct Hin as [-> | Hin]; [congruence |].
      exact (IH Hin (mkMachine (l ++ [update_of x]) h)).
    + rewrite collect_update_throws by assumption. now exists l.
  - rewrite collect_update_clean by assumption.
    destruct Hin as [-> | Hin]; [congruence |].
    exact (IH Hin (mkMachine l h)).
Qed.

(** For the channels whose dirty entries all carry [items_added] (every
    crawled channel, and every channel whose watermark is not negative),
    [getChannelUpdates] reports exactly the dirty channels of the query
    result: an entry for a channel if and only if its server time is later
    than the watermark of the client. *)
Lemma getChannelUpdates_crawled (app : App) (self : User) state results :
  channel_find app [] (keys state) = inr results ->
  Forall (fun ch => dirty state ch = true -> items_added ch <> None) results ->
  getChannelUpdates app self (Some state) =
    (Returned (map update_of (List.filter (dirty state) results)),
     [EChannelFind (keys state)]).
Proof.
  intros Hfind Hok. js_run. js_answer Hfind.
  rewrite (for_each_collect_update_crawled _ _ Hok). reflexivity.
Qed.

Lemma dirty_watermarked state ch :
  dirty state ch = true -> is_Some (state !! channel_id ch).
Proof.
  unfold dirty, later_than. destruct (state !! channel_id ch); [eauto | discriminate].
Qed.

(** The user has no subscription, sends a watermark for the channel [news],
    and is told about [news]. *)
Lemma getChannelUpdates_reports_unsubscribed :
  let state : gmap string Z := {[ channel_id news := 10 ]} in
  subscriptions alice !! channel_id news = None /\
  getChannelUpdates (channels_app [news; fresh_channel]) alice (Some state) =
    (Returned [mkChannelUpdate (channel_id news) 50
                 [mkItemUpdate "first" 40; mkItemUpdate "second" 50]],
     [EChannelFind [channel_id news]]).
Proof. split; [reflexivity | vm_compute; reflexivity]. Qed.

(** C2, amended.  [getChannelUpdates] queries exactly the channel ids that
    are keys of the watermarks it is given, whatever the subscriptions of
    the user, and every entry of its result is for a channel whose id is one
    of these keys: the result is the same for every user. *)
Theorem getChannelUpdates_only_watermarked (app : App) (self : User)
    (state : gmap string Z) (updates : list ChannelUpdate) (h : History) :
  getChannelUpdates app self (Some state) = (Returned updates, h) ->
  h = [EChannelFind (keys state)] /\
  (forall id, In id (keys state) <-> is_Some (state !! id)) /\
  (forall u, In u updates -> is_Some (state !! upd_id u)) /\
  (forall other, getChannelUpdates app other (Some state) = (Returned updates, h)).
Proof.
  intros Hrun.
  split; [| split; [intros id; apply keys_spec | split]].
  - revert Hrun. js_run.
    destruct (channel_find app [] (keys state)) as [e | results]; [discriminate |].
    destruct (for_each results (collect_update state) _) as [[[] | x] s'] eqn:Hloop;
      [| discriminate].
    apply for_each_collect_update in Hloop as [Hh _]. cbn in Hh.
    intros [= _ <-]. exact Hh.
  - revert Hrun. js_run.
    destruct (channel_find app [] (keys state)) as [e | results]; [discriminate |].
    destruct (for_each results (collect_update state) _) as [[[] | x] s'] eqn:Hloop;
      [| discriminate].
    apply for_each_collect_update in Hloop as (_ & added & Hl & Hall). cbn in Hl.
    intros [= <- _] u Hu. change (In u (locals s')) in Hu. rewrite Hl in Hu.
    rewrite Forall_forall in Hall.
    apply list_elem_of_In, Hall in Hu as (ch & _ & Hdirty & ->).
    now apply dirty_watermarked.
  - intros other. exact Hrun.
Qed.

Lemma getChannelUpdates_only_watermarked_witness :
  let state : gmap string Z := {[ channel_id news := 10 ]} in
  let h := [EChannelFind [channel_id news]] in
  h = [EChannelFind (keys state)] /\
  (forall id, In id (keys state) <-> is_Some (state !! id)) /\
  (forall u, In u [update_of news] -> is_Some (state !! upd_id u)) /\
  (forall other,
     getChannelUpdates (channels_app [news; fresh_channel]) other (Some state) =
       (Returned [update_of news], h)).
Proof.
  intros state h.
  apply (getChannelUpdates_only_watermarked
           (channels_app [news; fresh_channel]) alice state).
  vm_compute. reflexivity.
Defined.

(** *** Dirty channels *)

(** C6.  The specification asks that a channel of the query result be reported, with
    [itemsAddedAt] its server time, exactly when that time is later than
    the watermark, the server time of a channel never crawled being 0.  The
    code compares with 0 for such a channel, and then reads
    [items_added.getTime()] of the missing date to build the entry: when a
    channel never crawled has a negative watermark within the range of
    [Date], [getChannelUpdates] throws a TypeError and reports nothing. *)
Theorem getChannelUpdates_never_crawled_throws (app : App) (self : User)
    (state : gmap string Z) (results : list Channel) (ch : Channel) (w : Z) :
  channel_find app [] (keys state) = inr results ->
  In ch results ->
  items_added ch = None ->
  state !! channel_id ch = Some w ->
  - 8640000000000000 <= w < 0 ->
  getChannelUpdates app self (Some state) =
    (Threw (TypeError "items_added"), [EChannelFind (keys state)]).
Proof.
  intros Hfind Hin Hd Hw Hneg. js_run. js_answer Hfind.
  assert (Hdirty : dirty state ch = true)
    by (apply dirty_never_crawled; eauto).
  destruct (for_each_collect_update_throws state results ch Hin Hdirty Hd
              (mkMachine [] [EChannelFind (keys state)])) as [l ->].
  reflexivity.
Qed.

Lemma getChannelUpdates_never_crawled_throws_witness :
  let state : gmap string Z := {[ channel_id fresh_channel := -1 ]} in
  getChannelUpdates (channels_app [news; fresh_channel]) alice (Some state) =
    (Threw (TypeError "items_added"), [EChannelFind (keys state)]).
Proof.
  intros state.
  apply (getChannelUpdates_never_crawled_throws
           (channels_app [news; fresh_channel]) alice state
           [fresh_channel] fresh_channel (-1)).
  - vm_compute. reflexivity.
  - simpl. auto.
  - reflexivity.
  - vm_compute. reflexivity.
  - lia.
Defined.

(** *** No watermarks *)

Lemma for_each_collect_update_empty results (s : Machine (list ChannelUpdate)) :
  for_each results (collect_update ∅) s = (Returned tt, s).
Proof.
  induction results as [| ch rest IH]; [reflexivity |].
  cbn [for_each]. unfold bind at 1.
  rewrite collect_update_clean; [exact IH |].
  unfold dirty. now rewrite lookup_empty.
Qed.

(** With an empty watermark object and a failing channel query, the error of
    the query is thrown: the caller receives no list. *)
Example getChannelUpdates_query_error :
  getChannelUpdates channels_down alice (Some ∅) =
    (Threw (Uncaught "connection lost"), [EChannelFind []]).
Proof. vm_compute. reflexivity. Qed.

(** C7, amended.  Without a watermark object, [getChannelUpdates] returns
    the empty list and calls no collaborator.  With an empty one, which is
    truthy, it queries the channels for no id; it returns the empty list
    when that query succeeds, whatever the query yields, and throws the
    error of the query when it fails. *)
Theorem getChannelUpdates_no_watermarks (app : App) (self : User) :
  getChannelUpdates app self None = (Returned [], []) /\
  (forall results,
     channel_find app [] [] = inr results ->
     getChannelUpdates app self (Some ∅) = (Returned [], [EChannelFind []])) /\
  (forall e,
     channel_find app [] [] = inl e ->
     getChannelUpdates app self (Some ∅) =
       (Threw (Uncaught e), [EChannelFind []])).
Proof.
  split; [reflexivity |]. split.
  - intros results Hfind. js_run.
    unfold keys. rewrite map_to_list_empty. cbn [map].
    unfold ObjectId in Hfind. js_answer Hfind.
    rewrite for_each_collect_update_empty. reflexivity.
  - intros e Hfind. js_run.
    unfold keys. rewrite map_to_list_empty. cbn [map].
    unfold ObjectId in Hfind. js_answer Hfind. reflexivity.
Qed.

Lemma getChannelUpdates_no_watermarks_witness :
  getChannelUpdates (channels_app [news; fresh_channel]) alice None
    = (Returned [], []) /\
  getChannelUpdates (channels_app [news; fresh_channel]) alice (Some ∅)
    = (Returned [], [EChannelFind []]) /\
  getChannelUpdates
    (with_channel_find (fun _ _ => inl "query failed") quiet_app) alice (Some ∅)
    = (Threw (Uncaught "query failed"), [EChannelFind []]).
Proof.
  split; [| split].
  - apply (proj1 (getChannelUpdates_no_watermarks
                    (channels_app [news; fresh_channel]) alice)).
  - apply (proj1 (proj2 (getChannelUpdates_no_watermarks
                           (channels_app [news; fresh_channel]) alice)) []).
    reflexivity.
  - apply (proj2 (proj2 (getChannelUpdates_no_watermarks
                           (with_channel_find (fun _ _ => inl "query failed") quiet_app)
                           alice)) "query failed").
    reflexivity.
Defined.

(** *** Verification *)

Lemma signup_created (app : App) sha1_hex data err u h :
  signup app sha1_hex data = (Returned (err, Some u), h) ->
  verified u = false /\ exists token, verification u = Some token.
Proof.
  js_run. destruct (signup_errors app data); [| discriminate].
  destruct (user_findOne app [] _) as [e | [doc |]]; js_run; try discriminate;
    destruct (user_save app _ _); js_run; try discriminate;
    intros [= _ <- _]; cbn; eauto.
Qed.

Lemma findOrCreate_result (app : App) m err u h :
  findOrCreate app m = (Returned (err, Some u), h) ->
  user_findOne app [] (mkUserQuery None (Some m) None None) = inr (Some u) \/
  (verified u = true /\ verification u = None).
Proof.
  js_run. destruct (user_findOne app [] _) as [e | [doc |]]; js_run.
  - destruct (user_create app _ _); js_run; [discriminate |].
    intros [= _ <- _]. now right.
  - intros [= _ <- _]. now left.
  - destruct (user_create app _ _); js_run; [discriminate |].
    intros [= _ <- _]. now right.
Qed.

Lemma activate_result (app : App) (u : User) :
  activate app u =
    (Returned (user_save app [] (set_verified u true)), set_verified u true,
     [EUserSave (set_verified u true); ENotifyOnActivate (set_verified u true)]).
Proof. reflexivity. Qed.

(** A user signs up and is activated: the account is verified and still
    carries its verification token. *)
Lemma activate_keeps_verification_token :
  let data := mkSignupData "a@x.com" "secret1" "secret1" in
  fst (signup quiet_app plain_text data) = Returned (None, Some newcomer) /\
  fst (activate quiet_app newcomer) = (Returned None, set_verified newcomer true) /\
  reachable plain_text (set_verified newcomer true) /\
  ~ (verified (set_verified newcomer true) = true <->
     verification (set_verified newcomer true) = None).
Proof.
  repeat split.
  - eapply (reachable_activate plain_text quiet_app newcomer).
    + eapply (reachable_signup plain_text quiet_app
                (mkSignupData "a@x.com" "secret1" "secret1")).
      vm_compute. reflexivity.
    + reflexivity.
  - intros [Hnull _]. specialize (Hnull eq_refl). discriminate Hnull.
Qed.

(** C4, amended.  Every user document that arises through [signup],
    [findOrCreate] and [activate] satisfies one direction of the invariant:
    a null verification token implies that the account is verified.
    [activate] sets [verified] and leaves the verification token as it
    was. *)
Theorem verification_null_implies_verified (sha1_hex : string -> string) :
  (forall u, reachable sha1_hex u -> verification u = None -> verified u = true) /\
  (forall app u o u' h,
     activate app u = (o, u', h) ->
     verified u' = true /\ verification u' = verification u).
Proof.
  split.
  - induction 1 as [app data u h Hrun | app m err u h Hcoll IH Hrun
                    | app u err u' h Hu IH Hrun].
    + apply signup_created in Hrun as (_ & token & Htoken). congruence.
    + apply findOrCreate_result in Hrun as [Hfound | [Hv _]].
      * exact (IH _ _ _ Hfound).
      * intros _. exact Hv.
    + rewrite activate_result in Hrun. injection Hrun as _ <- _. reflexivity.
  - intros app u o u' h. rewrite activate_result. intros [= _ <- _]. now split.
Qed.

Lemma verification_null_implies_verified_witness :
  verified guest = true /\
  (verified (set_verified newcomer true) = true /\
   verification (set_verified newcomer true) = verification newcomer).
Proof.
  destruct (verification_null_implies_verified plain_text) as [Hinv Hact].
  split.
  - apply Hinv; [| reflexivity].
    apply (reachable_findOrCreate plain_text quiet_app "guest@x.com" None guest
             [EUserFindOne (mkUserQuery None (Some "guest@x.com") None None);
              EUserCreate guest;
              EMail "guest@x.com" "Welcome to pagetty.com" "signup_auto"]).
    + intros h' q doc Hdoc. vm_compute in Hdoc. discriminate Hdoc.
    + vm_compute. reflexivity.
  - apply (Hact quiet_app newcomer (Returned None) (set_verified newcomer true)
             [EUserSave (set_verified newcomer true);
              ENotifyOnActivate (set_verified newcomer true)]).
    reflexivity.
Defined.

(** *** authenticate *)

Lemma find_user_matches q coll u :
  List.find (user_matches q) coll = Some u ->
  In u coll /\ user_matches q u = true.
Proof. apply find_some. Qed.

(** C8.  [authenticate] hands out a user only if the collection holds that
    user with the given mail, verified, and with the hash of the given
    password under the id of the user; in every other case, whether no such
    mail is known, the account is not verified, the password is wrong or
    the query fails, the caller receives the same message. *)
Theorem authenticate_generic_error (app : App) (sha1_hex : string -> string)
    (coll : list User) (mail_ plainPass : string) :
  users_collection app coll ->
  let q := mkUserQuery None (Some mail_) None (Some true) in
  ((exists u,
      authenticate app sha1_hex mail_ plainPass
        = (Returned (None, Some u), [EUserFindOne q]) /\
      In u coll /\ mail u = mail_ /\ verified u = true /\
      pass u = Some (hashPassword sha1_hex (user_id u) plainPass)) \/
   authenticate app sha1_hex mail_ plainPass
     = (Returned (Some "Username or password does not match.", None),
        [EUserFindOne q])) /\
  ((forall u, In u coll -> mail u = mail_ -> verified u = true ->
              pass u <> Some (hashPassword sha1_hex (user_id u) plainPass)) ->
   authenticate app sha1_hex mail_ plainPass
     = (Returned (Some "Username or password does not match.", None),
        [EUserFindOne q])).
Proof.
  intros Hcoll q.
  assert (Hfound : forall u,
             user_findOne app [] q = inr (Some u) ->
             In u coll /\ mail u = mail_ /\ verified u = true).
  { intros u Hu. specialize (Hcoll [] q). rewrite Hu in Hcoll.
    symmetry in Hcoll. apply find_user_matches in Hcoll as [Hin Hm].
    unfold user_matches in Hm. cbn in Hm.
    apply andb_prop in Hm as [Hm Hv]. apply andb_prop in Hm as [Hm _].
    apply String.eqb_eq in Hm. destruct (verified u); [| discriminate Hv].
    auto. }
  split.
  - js_run. fold q.
    destruct (user_findOne app [] q) as [e | [u |]] eqn:Hq; js_run;
      [now right | | now right].
    destruct (decide (pass u = Some (hashPassword sha1_hex (user_id u) plainPass)))
      as [Hpass | Hpass]; [left | now right].
    exists u. destruct (Hfound u eq_refl) as (Hin & Hm & Hv). auto.
  - intros Hno. js_run. fold q.
    destruct (user_findOne app [] q) as [e | [u |]] eqn:Hq; js_run;
      try reflexivity.
    destruct (decide (pass u = Some (hashPassword sha1_hex (user_id u) plainPass)))
      as [Hpass | Hpass]; [| reflexivity].
    destruct (Hfound u eq_refl) as (Hin & Hm & Hv).
    now destruct (Hno u Hin Hm Hv).
Qed.

Lemma authenticate_generic_error_witness :
  let app := users_app [bob; carol] in
  let q := mkUserQuery None (Some "bob@example.org") None (Some true) in
  ((exists u,
      authenticate app plain_text "bob@example.org" "secret1"
        = (Returned (None, Some u), [EUserFindOne q]) /\
      In u [bob; carol] /\ mail u = "bob@example.org" /\ verified u = true /\
      pass u = Some (hashPassword plain_text (user_id u) "secret1")) \/
   authenticate app plain_text "bob@example.org" "secret1"
     = (Returned (Some "Username or password does not match.", None),
        [EUserFindOne q])) /\
  ((forall u, In u [bob; carol] -> mail u = "bob@example.org" -> verified u = true ->
              pass u <> Some (hashPassword plain_text (user_id u) "secret1")) ->
   authenticate app plain_text "bob@example.org" "secret1"
     = (Returned (Some "Username or password does not match.", None),
        [EUserFindOne q])).
Proof.
  intros app q.
  apply (authenticate_generic_error app plain_text [bob; carol]).
  intros h q'. reflexivity.
Defined.

(** The verified user with the right password is handed out; an unknown
    mail, an account not verified and a wrong password all end in the same
    answer. *)
Example authenticate_samples :
  let app := users_app [bob; carol] in
  let mismatch := Returned (Some "Username or password does not match.", None) in
  fst (authenticate app plain_text "bob@example.org" "secret1")
    = Returned (None, Some bob) /\
  fst (authenticate app plain_text "nobody@example.org" "secret1") = mismatch /\
  fst (authenticate app plain_text "carol@example.org" "secret2") = mismatch /\
  fst (authenticate app plain_text "bob@example.org" "wrong") = mismatch.
Proof. repeat split; vm_compute; reflexivity. Qed.

(** ** Further properties *)

Ltac js_more :=
  cbv [checkIfUsernameUnique checkIfUsernameUnique_body]; js_run.

(** *** signup *)

(** Three letters of two bytes each are three code units. *)
Example js_length_accents : js_length "ééé" = 3%nat /\ String.length "ééé" = 6%nat.
Proof. split; reflexivity. Qed.

(** X1.  [signup] validates before it calls any collaborator: when a check
    fails the caller receives the message of the first failing check, in
    the order mail format, password present, password length (at least six
    UTF-16 code units), passwords equal, and nothing has been queried,
    saved, mailed or notified. *)
Theorem signup_rejects_invalid (app : App) (sha1_hex : string -> string)
    (data : SignupData) :
  (isEmail app (data_mail data) = false ->
   signup app sha1_hex data = (Returned (Some "E-mail is not valid.", None), [])) /\
  (isEmail app (data_mail data) = true ->
   notEmpty app (data_pass data) = false ->
   signup app sha1_hex data = (Returned (Some "Password is required.", None), [])) /\
  (isEmail app (data_mail data) = true ->
   notEmpty app (data_pass data) = true ->
   (js_length (data_pass data) < 6)%nat ->
   signup app sha1_hex data =
     (Returned (Some "Password must contain at least 6 characters.", None), [])) /\
  (isEmail app (data_mail data) = true ->
   notEmpty app (data_pass data) = true ->
   (6 <= js_length (data_pass data))%nat ->
   data_pass data <> data_pass2 data ->
   signup app sha1_hex data = (Returned (Some "Passwords do not match.", None), [])).
Proof.
  unfold signup, run, signup_body, signup_errors.
  repeat split.
  - intros ->. reflexivity.
  - intros -> ->. reflexivity.
  - intros -> -> Hlen.
    destruct (Nat.leb_spec 6 (js_length (data_pass data))); [lia |].
    reflexivity.
  - intros -> -> Hlen Hne.
    destruct (Nat.leb_spec 6 (js_length (data_pass data))); [| lia].
    destruct (String.eqb_spec (data_pass data) (data_pass2 data)); [contradiction |].
    reflexivity.
Qed.

Lemma signup_rejects_invalid_witness :
  signup quiet_app plain_text (mkSignupData "nobody" "" "x")
    = (Returned (Some "E-mail is not valid.", None), []) /\
  signup quiet_app plain_text (mkSignupData "a@x.com" "" "x")
    = (Returned (Some "Password is required.", None), []) /\
  signup quiet_app plain_text (mkSignupData "a@x.com" "ééé" "x")
    = (Returned (Some "Password must contain at least 6 characters.", None), []) /\
  signup quiet_app plain_text (mkSignupData "a@x.com" "secret1" "secret2")
    = (Returned (Some "Passwords do not match.", None), []).
Proof.
  split; [| split; [| split]].
  - apply (proj1 (signup_rejects_invalid quiet_app plain_text _)). reflexivity.
  - apply (proj1 (proj2 (signup_rejects_invalid quiet_app plain_text _)));
      reflexivity.
  - apply (proj1 (proj2 (proj2 (signup_rejects_invalid quiet_app plain_text _))));
      [reflexivity | reflexivity | simpl; lia].
  - apply (proj2 (proj2 (proj2 (signup_rejects_invalid quiet_app plain_text _))));
      [reflexivity | reflexivity | simpl; lia | discriminate].
Defined.

(** X2.  When the checks pass and a user with the mail is found, [signup]
    answers that the mail is in use; the lookup is its only call, so no
    document is saved and nothing is mailed or notified. *)
Theorem signup_mail_in_use (app : App) (sha1_hex : string -> string)
    (data : SignupData) (doc : User) :
  signup_errors app data = [] ->
  user_findOne app [] (mkUserQuery None (Some (data_mail data)) None None)
    = inr (Some doc) ->
  signup app sha1_hex data =
    (Returned (Some "E-mail is already in use.", None),
     [EUserFindOne (mkUserQuery None (Some (data_mail data)) None None)]).
Proof.
  intros Hvalid Hfound. js_run. rewrite Hvalid. js_run. js_answer Hfound.
  reflexivity.
Qed.

Lemma signup_mail_in_use_witness :
  signup (users_app [bob; carol]) plain_text
         (mkSignupData "carol@example.org" "secret1" "secret1") =
    (Returned (Some "E-mail is already in use.", None),
     [EUserFindOne (mkUserQuery None (Some "carol@example.org") None None)]).
Proof.
  apply (signup_mail_in_use (users_app [bob; carol]) plain_text
           (mkSignupData "carol@example.org" "secret1" "secret1") carol);
    reflexivity.
Defined.

(** The document [signup] builds once the mail is taken to be free. *)
Lemma signup_run (app : App) (sha1_hex : string -> string) (data : SignupData) :
  signup_errors app data = [] ->
  let q := mkUserQuery None (Some (data_mail data)) None None in
  (forall doc, user_findOne app [] q <> inr (Some doc)) ->
  let id := new_ObjectId app [EUserFindOne q] in
  let date := new_Date app [EUserFindOne q] in
  let user := mkUser id (data_mail data)
                (Some (hashPassword sha1_hex id (data_pass data))) date ∅ date date
                (Some (sha1_hex ("qwmi39ds" +:+ pretty (getTime date)))) false in
  signup app sha1_hex data =
    match user_save app [EUserFindOne q] user with
    | Some _ =>
        (Returned (Some "Unable to create user account.", None),
         [EUserFindOne q; EUserSave user])
    | None =>
        (Returned (None, Some user),
         [EUserFindOne q; EUserSave user; EListCreateUserDefaults user;
          EMail (data_mail data) "Welcome to pagetty.com" "signup";
          ENotifyOnSignup user])
    end.
Proof.
  intros Hvalid q Hfree id date user. js_run. rewrite Hvalid. js_run. fold q.
  destruct (user_findOne app [] q) as [e | [doc |]] eqn:Hq;
    [ | now destruct (Hfree doc) | ]; js_run; fold id date user;
    destruct (user_save app [EUserFindOne q] user); reflexivity.
Qed.

(** X3.  When the new document cannot be saved, [signup] answers with its
    own message and stops: no default lists are created, no mail is sent
    and no signup notification is emitted. *)
Theorem signup_save_failure (app : App) (sha1_hex : string -> string)
    (data : SignupData) (e : Err) :
  signup_errors app data = [] ->
  let q := mkUserQuery None (Some (data_mail data)) None None in
  (forall doc, user_findOne app [] q <> inr (Some doc)) ->
  (forall user, user_save app [EUserFindOne q] user = Some e) ->
  exists user,
    signup app sha1_hex data =
      (Returned (Some "Unable to create user account.", None),
       [EUserFindOne q; EUserSave user]).
Proof.
  intros Hvalid q Hfree Hsave.
  rewrite (signup_run app sha1_hex data Hvalid Hfree). rewrite Hsave. eauto.
Qed.

Lemma signup_save_failure_witness :
  exists user,
    signup user_save_down plain_text (mkSignupData "a@x.com" "secret1" "secret1") =
      (Returned (Some "Unable to create user account.", None),
       [EUserFindOne (mkUserQuery None (Some "a@x.com") None None);
        EUserSave user]).
Proof.
  apply (signup_save_failure user_save_down plain_text
           (mkSignupData "a@x.com" "secret1" "secret1") "user not saved").
  - reflexivity.
  - intros doc Hdoc. discriminate Hdoc.
  - reflexivity.
Defined.

(** X4.  When the checks pass, no user with the mail is found (a failed
    lookup counts as none) and the document is saved, [signup] hands out the
    saved document after creating the default lists, sending the welcome
    mail and emitting the signup notification, in that order; what the
    creation of the default lists reports is ignored. *)
Theorem signup_success (app : App) (sha1_hex : string -> string)
    (data : SignupData) :
  signup_errors app data = [] ->
  let q := mkUserQuery None (Some (data_mail data)) None None in
  (forall doc, user_findOne app [] q <> inr (Some doc)) ->
  (forall user, user_save app [EUserFindOne q] user = None) ->
  exists user,
    signup app sha1_hex data =
      (Returned (None, Some user),
       [EUserFindOne q; EUserSave user; EListCreateUserDefaults user;
        EMail (data_mail data) "Welcome to pagetty.com" "signup";
        ENotifyOnSignup user]) /\
    mail user = data_mail data /\ verified user = false.
Proof.
  intros Hvalid q Hfree Hsave.
  rewrite (signup_run app sha1_hex data Hvalid Hfree). rewrite Hsave.
  eexists. split; [reflexivity |]. split; reflexivity.
Qed.

Lemma signup_success_witness :
  exists user,
    signup quiet_app plain_text (mkSignupData "a@x.com" "secret1" "secret1") =
      (Returned (None, Some user),
       [EUserFindOne (mkUserQuery None (Some "a@x.com") None None);
        EUserSave user; EListCreateUserDefaults user;
        EMail "a@x.com" "Welcome to pagetty.com" "signup";
        ENotifyOnSignup user]) /\
    mail user = "a@x.com" /\ verified user = false.
Proof.
  apply (signup_success quiet_app plain_text
           (mkSignupData "a@x.com" "secret1" "secret1")).
  - reflexivity.
  - intros doc Hdoc. discriminate Hdoc.
  - reflexivity.
Defined.

(** The fields of the document [signup] hands out. *)
Lemma signup_fields (app : App) (sha1_hex : string -> string)
    (data : SignupData) (err : option Err) (u : User) (h : History) :
  signup app sha1_hex data = (Returned (err, Some u), h) ->
  mail u = data_mail data /\
  pass u = Some (hashPassword sha1_hex (user_id u) (data_pass data)) /\
  verification u = Some (sha1_hex ("qwmi39ds" +:+ pretty (getTime (created u)))) /\
  high u = created u /\ low u = created u /\
  subscriptions u = ∅ /\ verified u = false.
Proof.
  js_run. destruct (signup_errors app data); [| discriminate].
  destruct (user_findOne app [] _) as [e | [doc |]]; js_run; try discriminate;
    destruct (user_save app _ _); js_run; try discriminate;
    intros [= _ <- _]; cbn; repeat split; reflexivity.
Qed.


(** X5.  Whatever user [signup] hands out carries the mail it was given, the
    hash of the given password under its own id, no subscription, and is not
    verified; its verification token is the hash of a fixed prefix and of
    its creation time, which is also its [high] and [low] date. *)
Theorem signup_document (app : App) (sha1_hex : string -> string)
    (data : SignupData) (err : option Err) (u : User) (h : History) :
  signup app sha1_hex data = (Returned (err, Some u), h) ->
  mail u = data_mail data /\
  pass u = Some (hashPassword sha1_hex (user_id u) (data_pass data)) /\
  verification u = Some (sha1_hex ("qwmi39ds" +:+ pretty (getTime (created u)))) /\
  high u = created u /\ low u = created u /\
  subscriptions u = ∅ /\ verified u = false.
Proof. apply signup_fields. Qed.

Lemma signup_document_witness :
  mail newcomer = "a@x.com" /\
  pass newcomer = Some (hashPassword plain_text (user_id newcomer) "secret1") /\
  verification newcomer
    = Some (plain_text ("qwmi39ds" +:+ pretty (getTime (created newcomer)))) /\
  high newcomer = created newcomer /\ low newcomer = created newcomer /\
  subscriptions newcomer = ∅ /\ verified newcomer = false.
Proof.
  apply (signup_document quiet_app plain_text
           (mkSignupData "a@x.com" "secret1" "secret1") None newcomer
           [EUserFindOne (mkUserQuery None (Some "a@x.com") None None);
            EUserSave newcomer; EListCreateUserDefaults newcomer;
            EMail "a@x.com" "Welcome to pagetty.com" "signup";
            ENotifyOnSignup newcomer]).
  vm_compute. reflexivity.
Defined.

(** *** signup, activate and authenticate together *)

Lemma user_matches_mail_verified (m : string) (x : User) :
  user_matches (mkUserQuery None (Some m) None (Some true)) x = true ->
  mail x = m /\ verified x = true.
Proof.
  unfold user_matches. cbn. intros H.
  apply andb_prop in H as [H Hv]. apply andb_prop in H as [H _].
  apply String.eqb_eq in H. destruct (verified x); [auto | discriminate Hv].
Qed.

(** X6.  A user who signed up cannot authenticate while the account is not
    activated, even with the password of the signup; once [activate] has
    run on the document and the collection hands that document out, the
    mail and password of the signup authenticate it. *)
Theorem signup_activate_authenticate (app : App) (sha1_hex : string -> string)
    (data : SignupData) (u : User) (h : History) :
  signup app sha1_hex data = (Returned (None, Some u), h) ->
  let q := mkUserQuery None (Some (data_mail data)) None (Some true) in
  (forall app' coll,
     users_collection app' coll ->
     (forall x, In x coll -> mail x = data_mail data -> x = u) ->
     authenticate app' sha1_hex (data_mail data) (data_pass data) =
       (Returned (Some "Username or password does not match.", None),
        [EUserFindOne q])) /\
  (forall app1 app2 o u' h',
     activate app1 u = (o, u', h') ->
     user_findOne app2 [] q = inr (Some u') ->
     authenticate app2 sha1_hex (data_mail data) (data_pass data) =
       (Returned (None, Some u'), [EUserFindOne q])).
Proof.
  intros Hsignup q.
  apply signup_fields in Hsignup as (Hmail & Hpass & _ & _ & _ & _ & Hver).
  split.
  - intros app' coll Hcoll Honly. js_run. fold q.
    specialize (Hcoll [] q).
    destruct (user_findOne app' [] q) as [e | [x |]]; js_run; try reflexivity.
    symmetry in Hcoll. apply find_some in Hcoll as [Hin Hm].
    apply user_matches_mail_verified in Hm as [Hm Hv].
    rewrite (Honly x Hin Hm) in Hv. congruence.
  - intros app1 app2 o u' h'. rewrite activate_result. intros [= _ <- _] Hq.
    js_run. fold q. js_answer Hq. cbn. rewrite Hpass.
    destruct (decide _) as [_ | Hne]; [reflexivity | now destruct Hne].
Qed.

Lemma signup_activate_authenticate_witness :
  let q := mkUserQuery None (Some "a@x.com") None (Some true) in
  authenticate (users_app [bob; newcomer]) plain_text "a@x.com" "secret1" =
    (Returned (Some "Username or password does not match.", None),
     [EUserFindOne q]) /\
  authenticate (users_app [bob; set_verified newcomer true]) plain_text
               "a@x.com" "secret1" =
    (Returned (None, Some (set_verified newcomer true)), [EUserFindOne q]).
Proof.
  intros q.
  destruct (signup_activate_authenticate quiet_app plain_text
              (mkSignupData "a@x.com" "secret1" "secret1") newcomer
              [EUserFindOne (mkUserQuery None (Some "a@x.com") None None);
               EUserSave newcomer; EListCreateUserDefaults newcomer;
               EMail "a@x.com" "Welcome to pagetty.com" "signup";
               ENotifyOnSignup newcomer])
    as [Hbefore Hafter]; [vm_compute; reflexivity |].
  split.
  - apply (Hbefore (users_app [bob; newcomer]) [bob; newcomer]).
    + intros h' q'. reflexivity.
    + intros x [<- | [<- | []]] Hm; [discriminate Hm | reflexivity].
  - apply (Hafter quiet_app (users_app [bob; set_verified newcomer true])
             (Returned None) (set_verified newcomer true)
             [EUserSave (set_verified newcomer true);
              ENotifyOnActivate (set_verified newcomer true)]);
      reflexivity.
Defined.

(** *** findOrCreate *)

(** X7.  For a known mail [findOrCreate] hands out the stored document and
    does nothing else: no document is created and no mail is sent.  For a
    mail that is not found (a failed lookup counts as not found) it creates
    a verified document without password, verification token or
    subscription, then sends the welcome mail of the automatic signup. *)
Theorem findOrCreate_known_or_created (app : App) (m : string) :
  let q := mkUserQuery None (Some m) None None in
  (forall u, user_findOne app [] q = inr (Some u) ->
     findOrCreate app m = (Returned (None, Some u), [EUserFindOne q])) /\
  ((forall u, user_findOne app [] q <> inr (Some u)) ->
   let date := new_Date app [] in
   let doc := mkUser (new_ObjectId app [EUserFindOne q]) m None date ∅ date date
                     None true in
   user_create app [EUserFindOne q] doc = None ->
   findOrCreate app m =
     (Returned (None, Some doc),
      [EUserFindOne q; EUserCreate doc;
       EMail m "Welcome to pagetty.com" "signup_auto"])).
Proof.
  intros q. split.
  - intros u Hu. js_run. fold q. js_answer Hu. reflexivity.
  - intros Hnone date doc Hcreate. js_run. fold q.
    destruct (user_findOne app [] q) as [e | [u |]];
      [ | now destruct (Hnone u) | ]; js_run; fold date doc;
      js_answer Hcreate; reflexivity.
Qed.

Lemma findOrCreate_known_or_created_witness :
  findOrCreate (users_app [bob; carol]) "carol@example.org" =
    (Returned (None, Some carol),
     [EUserFindOne (mkUserQuery None (Some "carol@example.org") None None)]) /\
  findOrCreate quiet_app "guest@x.com" =
    (Returned (None, Some guest),
     [EUserFindOne (mkUserQuery None (Some "guest@x.com") None None);
      EUserCreate guest;
      EMail "guest@x.com" "Welcome to pagetty.com" "signup_auto"]).
Proof.
  split.
  - apply (proj1 (findOrCreate_known_or_created (users_app [bob; carol])
                    "carol@example.org")).
    reflexivity.
  - apply (proj2 (findOrCreate_known_or_created quiet_app "guest@x.com")).
    + intros u Hu. discriminate Hu.
    + reflexivity.
Defined.

(** X8.  When the document of an unknown mail cannot be created,
    [findOrCreate] reads the mail of the missing document: a TypeError is
    thrown, no mail is sent, and the caller never receives the error. *)
Theorem findOrCreate_create_failure_throws (app : App) (m : string) (e : Err) :
  let q := mkUserQuery None (Some m) None None in
  (forall u, user_findOne app [] q <> inr (Some u)) ->
  (forall doc, user_create app [EUserFindOne q] doc = Some e) ->
  exists doc,
    findOrCreate app m =
      (Threw (TypeError "user"), [EUserFindOne q; EUserCreate doc]).
Proof.
  intros q Hnone Hcreate. js_run. fold q.
  destruct (user_findOne app [] q) as [x | [u |]];
    [ | now destruct (Hnone u) | ]; js_run;
    rewrite Hcreate; eexists; reflexivity.
Qed.

Lemma findOrCreate_create_failure_throws_witness :
  exists doc,
    findOrCreate user_save_down "guest@x.com" =
      (Threw (TypeError "user"),
       [EUserFindOne (mkUserQuery None (Some "guest@x.com") None None);
        EUserCreate doc]).
Proof.
  apply (findOrCreate_create_failure_throws user_save_down "guest@x.com"
           "user not created").
  - intros u Hu. discriminate Hu.
  - reflexivity.
Defined.

(** X9.  A user without a stored password, as [findOrCreate] creates them,
    never authenticates: whatever password is given, the caller receives
    the mismatch message. *)
Theorem authenticate_without_password (app : App) (sha1_hex : string -> string)
    (m plainPass : string) (u : User) :
  user_findOne app [] (mkUserQuery None (Some m) None (Some true)) = inr (Some u) ->
  pass u = None ->
  authenticate app sha1_hex m plainPass =
    (Returned (Some "Username or password does not match.", None),
     [EUserFindOne (mkUserQuery None (Some m) None (Some true))]).
Proof.
  intros Hu Hpass. js_run. js_answer Hu. cbn. rewrite Hpass.
  destruct (decide _) as [Heq | _]; [discriminate Heq | reflexivity].
Qed.

Lemma authenticate_without_password_witness :
  authenticate (users_app [guest]) plain_text "guest@x.com" "" =
    (Returned (Some "Username or password does not match.", None),
     [EUserFindOne (mkUserQuery None (Some "guest@x.com") None (Some true))]).
Proof.
  apply (authenticate_without_password (users_app [guest]) plain_text
           "guest@x.com" "" guest); reflexivity.
Defined.

(** *** activate *)


(** *** subscribeToChannel *)

(** X11.  In [subscribeToChannel] a failed load of the channel ends the
    series before the subscription check; for a loaded channel the user has
    no list for (a failed count counts as none), a failed list creation
    ends the series before the counter is touched, and a failed counter
    update leaves the created list in place; the caller receives the error
    of the load, or the fixed message of the failing step.  When every step
    succeeds the list created is of type "channel", is named after the
    title of the channel and has no weight. *)
Theorem subscribeToChannel_first_error_aborts (app : App) (self : User)
    (cid : ObjectId) :
  let uid := user_id self in
  (forall e,
     channel_findById app [] cid = inl e ->
     exists h, subscribeToChannel app self cid = (Returned (Some e, None), h) /\
               workflow_calls h = [EChannelFindById cid]) /\
  (forall c,
     channel_findById app [] cid = inr (Some c) ->
     (forall n, list_count app [EChannelFindById cid] uid cid <> inr (S n)) ->
     let doc := mkListDoc "channel" (channel_title c) uid cid None in
     let checked := [EChannelFindById cid; EListCount uid cid] in
     (forall e, list_create app checked doc = Some e ->
        exists h, subscribeToChannel app self cid =
                    (Returned (Some "Could not subscribe to this site.", Some c), h) /\
                  workflow_calls h = checked ++ [EListCreate doc]) /\
     (forall e, list_create app checked doc = None ->
        channel_updateSubscriberCount app (checked ++ [EListCreate doc]) c = Some e ->
        exists h, subscribeToChannel app self cid =
                    (Returned (Some "Could not increment subscribers.", Some c), h) /\
                  workflow_calls h =
                    checked ++ [EListCreate doc; EChannelUpdateSubscriberCount c]) /\
     (list_create app checked doc = None ->
        channel_updateSubscriberCount app (checked ++ [EListCreate doc]) c = None ->
        exists h, subscribeToChannel app self cid = (Returned (None, Some c), h) /\
                  workflow_calls h =
                    checked ++ [EListCreate doc; EChannelUpdateSubscriberCount c])).
Proof.
  intros uid. split.
  - intros e He. js_run. js_answer He. eexists; split; reflexivity.
  - intros c Hc Hcount doc checked. subst doc checked uid. cbn [List.app].
    repeat split.
    + intros e Hlist. js_run. js_answer Hc.
      destruct (list_count app [EChannelFindById cid] (user_id self) cid)
        as [x | [| n]] eqn:Hn; [ | | now destruct (Hcount n)]; js_run;
        js_answer Hlist; eexists; split; reflexivity.
    + intros e Hlist Hupd. js_run. js_answer Hc.
      destruct (list_count app [EChannelFindById cid] (user_id self) cid)
        as [x | [| n]] eqn:Hn; [ | | now destruct (Hcount n)]; js_run;
        js_answer Hlist; js_answer Hupd; eexists; split; reflexivity.
    + intros Hlist Hupd. js_run. js_answer Hc.
      destruct (list_count app [EChannelFindById cid] (user_id self) cid)
        as [x | [| n]] eqn:Hn; [ | | now destruct (Hcount n)]; js_run;
        js_answer Hlist; js_answer Hupd; eexists; split; reflexivity.
Qed.

Lemma subscribeToChannel_first_error_aborts_witness :
  let cid := channel_id news in
  let uid := user_id alice in
  let doc := mkListDoc "channel" (Some "News") uid cid None in
  let checked := [EChannelFindById cid; EListCount uid cid] in
  (exists h, subscribeToChannel
               (with_channel_findById (fun _ _ => inl "lookup failed") quiet_app)
               alice cid = (Returned (Some "lookup failed", None), h) /\
             workflow_calls h = [EChannelFindById cid]) /\
  (exists h, subscribeToChannel list_create_down alice cid =
               (Returned (Some "Could not subscribe to this site.", Some news), h) /\
             workflow_calls h = checked ++ [EListCreate doc]) /\
  (exists h, subscribeToChannel
               (with_channel_updateSubscriberCount (fun _ _ => Some "count not updated")
                  (channels_app [news; fresh_channel]))
               alice cid =
               (Returned (Some "Could not increment subscribers.", Some news), h) /\
             workflow_calls h =
               checked ++ [EListCreate doc; EChannelUpdateSubscriberCount news]) /\
  (exists h, subscribeToChannel (channels_app [news; fresh_channel]) alice cid =
               (Returned (None, Some news), h) /\
             workflow_calls h =
               checked ++ [EListCreate doc; EChannelUpdateSubscriberCount news]).
Proof.
  intros cid uid doc checked.
  assert (Hcount : forall app, list_count app = list_count quiet_app ->
            forall n, list_count app [EChannelFindById cid] uid cid <> inr (S n)).
  { intros app -> n Hn. discriminate Hn. }
  split; [| split; [| split]].
  - apply (proj1 (subscribeToChannel_first_error_aborts
                    (with_channel_findById (fun _ _ => inl "lookup failed") quiet_app)
                    alice cid)).
    reflexivity.
  - apply (proj1 (proj2 (subscribeToChannel_first_error_aborts
                           list_create_down alice cid)
                    news eq_refl (Hcount _ eq_refl)) "list not saved").
    reflexivity.
  - apply (proj1 (proj2 (proj2 (subscribeToChannel_first_error_aborts
             (with_channel_updateSubscriberCount (fun _ _ => Some "count not updated")
                (channels_app [news; fresh_channel])) alice cid)
             news eq_refl (Hcount _ eq_refl))) "count not updated");
      reflexivity.
  - apply (proj2 (proj2 (proj2 (subscribeToChannel_first_error_aborts
             (channels_app [news; fresh_channel]) alice cid)
             news eq_refl (Hcount _ eq_refl))));
      reflexivity.
Defined.

(** X12.  When no channel has the given id and the user has no list for it,
    [subscribeToChannel] reads the title of the missing channel: a TypeError
    is thrown after the load and the count; no list is created, no counter
    is updated, nothing is notified and the caller is never called back. *)
Theorem subscribeToChannel_missing_channel_throws (app : App) (self : User)
    (cid : ObjectId) :
  channel_findById app [] cid = inr None ->
  (forall n, list_count app [EChannelFindById cid] (user_id self) cid <> inr (S n)) ->
  subscribeToChannel app self cid =
    (Threw (TypeError "channel"),
     [EChannelFindById cid; EListCount (user_id self) cid]).
Proof.
  intros Hnone Hcount. js_run. js_answer Hnone.
  destruct (list_count app [EChannelFindById cid] (user_id self) cid)
    as [x | [| n]] eqn:Hn; [ | | now destruct (Hcount n)]; reflexivity.
Qed.

Lemma subscribeToChannel_missing_channel_throws_witness :
  subscribeToChannel (channels_app [news]) alice (channel_id fresh_channel) =
    (Threw (TypeError "channel"),
     [EChannelFindById (channel_id fresh_channel);
      EListCount (user_id alice) (channel_id fresh_channel)]).
Proof.
  apply subscribeToChannel_missing_channel_throws.
  - reflexivity.
  - intros n Hn. discriminate Hn.
Defined.

(** *** unsubscribe *)

(** X13.  For a channel that can be loaded, [unsubscribe] calls back without
    an error even when both the removal of the list and the update of the
    counter report one: the counter is still updated after a failed
    removal, and the notification is still emitted after a failed update. *)
Theorem unsubscribe_swallows_errors (app : App) (self : User) (cid : ObjectId)
    (doc : Channel) (e1 e2 : Err) :
  list_remove app [] (user_id self) cid = Some e1 ->
  channel_findById app [EListRemove (user_id self) cid] cid = inr (Some doc) ->
  channel_updateSubscriberCount app
    [EListRemove (user_id self) cid; EChannelFindById cid] doc = Some e2 ->
  unsubscribe app self cid =
    (Returned tt,
     [EListRemove (user_id self) cid; EChannelFindById cid;
      EChannelUpdateSubscriberCount doc; ENotifyOnUnSubscribe self (Some doc)]).
Proof. intros _ Hdoc _. now apply unsubscribe_channel_found. Qed.

Lemma unsubscribe_swallows_errors_witness :
  unsubscribe lists_down alice (channel_id news) =
    (Returned tt,
     [EListRemove (user_id alice) (channel_id news);
      EChannelFindById (channel_id news);
      EChannelUpdateSubscriberCount news;
      ENotifyOnUnSubscribe alice (Some news)]).
Proof.
  apply (unsubscribe_swallows_errors lists_down alice (channel_id news) news
           "list not removed" "count not updated");
    reflexivity.
Defined.

(** *** subscribe *)

(** X14.  [subscribe] throws exactly when [app.parseFeed] calls back with
    neither an error nor a feed: the next task reads the url of the missing
    feed, so a TypeError is thrown right after the parse, no channel is
    looked up, nothing is notified and the caller is never called back.
    Whatever else the collaborators answer, the caller is called back. *)
Theorem subscribe_throws_without_feed (app : App) (self : User) (url : string) :
  (parseFeed app [] url = inr None ->
   subscribe app self url = (Threw (TypeError "feed"), [EParseFeed url])) /\
  (parseFeed app [] url <> inr None ->
   exists err ch h, subscribe app self url = (Returned (err, ch), h)).
Proof.
  split.
  - intros Hnone. js_run. js_answer Hnone. reflexivity.
  - intros Hfeed.
    destruct (subscribe_always_notifies app self url Hfeed)
      as (err & ch & h & Hrun & _).
    eauto.
Qed.

Lemma subscribe_throws_without_feed_witness :
  subscribe feed_missing alice "http://example.org/feed" =
    (Threw (TypeError "feed"), [EParseFeed "http://example.org/feed"]) /\
  exists err ch h,
    subscribe quiet_app alice "http://example.org/feed" = (Returned (err, ch), h).
Proof.
  split.
  - apply (proj1 (subscribe_throws_without_feed feed_missing alice
                    "http://example.org/feed")).
    reflexivity.
  - apply (proj2 (subscribe_throws_without_feed quiet_app alice
                    "http://example.org/feed")).
    intros Hnone. discriminate Hnone.
Defined.

(** X15.  When [subscribe] calls back without an error, it hands out a
    channel, and every step has run on that channel, in order: the feed was
    parsed, the channel found by the url of the feed or saved as a new one,
    crawled, a list created for the user with the title of the feed, and the
    subscriber count updated. *)
Theorem subscribe_success_complete (app : App) (self : User) (url : string)
    (ch : option Channel) (h : History) :
  subscribe app self url = (Returned (None, ch), h) ->
  exists f c calls,
    parseFeed app [] url = inr (Some f) /\
    ch = Some c /\
    resolves app [EParseFeed url] f c calls /\
    h = EParseFeed url :: calls ++
        [EChannelCrawl c;
         EListCreateFromChannel (user_id self) (channel_id c) (feed_title f);
         EChannelUpdateSubscriberCount c;
         ENotifyOnSubscribe self (Some c)].
Proof.
  js_run.
  destruct (parseFeed app [] url) as [e | [f |]] eqn:Hf; js_run;
    [discriminate | | discriminate].
  destruct (channel_findOne app [EParseFeed url] (feed_url f)) as [e | [doc |]] eqn:Hfind;
    js_run.
  - destruct (channel_save app _ _) as [e' |] eqn:Hsave; js_run; [discriminate |].
    destruct (list_createFromChannel app _ _ _ _) as [e2 |]; js_run; [discriminate |].
    destruct (channel_updateSubscriberCount app _ _) as [e3 |]; js_run; [discriminate |].
    intros [= <- <-]. eexists f, _, _. repeat split.
    + apply (resolves_created app [EParseFeed url] f); [| exact Hsave].
      intros doc Hdoc. rewrite Hfind in Hdoc. discriminate Hdoc.
    + reflexivity.
  - destruct (list_createFromChannel app _ _ _ _) as [e2 |]; js_run; [discriminate |].
    destruct (channel_updateSubscriberCount app _ _) as [e3 |]; js_run; [discriminate |].
    intros [= <- <-]. eexists f, _, _. repeat split.
    + apply (resolves_found app [EParseFeed url] f doc Hfind).
    + reflexivity.
  - destruct (channel_save app _ _) as [e' |] eqn:Hsave; js_run; [discriminate |].
    destruct (list_createFromChannel app _ _ _ _) as [e2 |]; js_run; [discriminate |].
    destruct (channel_updateSubscriberCount app _ _) as [e3 |]; js_run; [discriminate |].
    intros [= <- <-]. eexists f, _, _. repeat split.
    + apply (resolves_created app [EParseFeed url] f); [| exact Hsave].
      intros doc Hdoc. rewrite Hfind in Hdoc. discriminate Hdoc.
    + reflexivity.
Qed.

Lemma subscribe_success_complete_witness :
  let url := "http://example.org/feed" in
  exists f c calls,
    parseFeed quiet_app [] url = inr (Some f) /\
    Some (new_channel "507f1f77bcf86cd799439011" (sample_feed url)) = Some c /\
    resolves quiet_app [EParseFeed url] f c calls /\
    [EParseFeed url; EChannelFindOne url;
     EChannelSave (new_channel "507f1f77bcf86cd799439011" (sample_feed url));
     EChannelCrawl (new_channel "507f1f77bcf86cd799439011" (sample_feed url));
     EListCreateFromChannel (user_id alice) "507f1f77bcf86cd799439011" "Sample feed";
     EChannelUpdateSubscriberCount
       (new_channel "507f1f77bcf86cd799439011" (sample_feed url));
     ENotifyOnSubscribe alice
       (Some (new_channel "507f1f77bcf86cd799439011" (sample_feed url)))]
    = EParseFeed url :: calls ++
        [EChannelCrawl c;
         EListCreateFromChannel (user_id alice) (channel_id c) (feed_title f);
         EChannelUpdateSubscriberCount c;
         ENotifyOnSubscribe alice (Some c)].
Proof.
  intros url.
  apply (subscribe_success_complete quiet_app alice url).
  reflexivity.
Defined.

(** X16.  When the url of the feed belongs to a channel that is already
    stored, [subscribe] works on that channel and saves no channel, however
    the later steps go: a known channel is never duplicated. *)
Theorem subscribe_known_channel_not_saved (app : App) (self : User)
    (url : string) (f : Feed) (doc : Channel) :
  parseFeed app [] url = inr (Some f) ->
  channel_findOne app [EParseFeed url] (feed_url f) = inr (Some doc) ->
  exists err h,
    subscribe app self url = (Returned (err, Some doc), h) /\
    forall ch, ~ In (EChannelSave ch) h.
Proof.
  intros Hf Hfind. js_run. js_answer Hf. js_answer Hfind.
  destruct (list_createFromChannel app _ _ _ _) as [e2 |]; js_run;
    [| destruct (channel_updateSubscriberCount app _ _) as [e3 |]; js_run];
    eexists _, _; (split; [reflexivity |]);
    intros ch Hin; cbn in Hin; intuition discriminate.
Qed.

Lemma subscribe_known_channel_not_saved_witness :
  exists err h,
    subscribe (with_channel_findOne (fun _ _ => inr (Some news)) quiet_app) alice
              "http://example.org/feed" = (Returned (err, Some news), h) /\
    forall ch, ~ In (EChannelSave ch) h.
Proof.
  apply (subscribe_known_channel_not_saved
           (with_channel_findOne (fun _ _ => inr (Some news)) quiet_app) alice
           "http://example.org/feed" (sample_feed "http://example.org/feed") news);
    reflexivity.
Defined.

(** *** The cascade after a removal *)

(** X17.  Every call of the cascade is the removal of the read state of the
    user, the query of the subscribed channels, an update of a subscriber
    count or the account-deletion notification: the cascade removes no list
    of the user and saves no document. *)
Theorem post_remove_calls (app : App) (self : User) (ev : Event) :
  In ev (snd (post_remove app self)) ->
  ev = EStateRemove (user_id self) \/
  ev = EChannelFind (keys (subscriptions self)) \/
  (exists ch, ev = EChannelUpdateSubscriberCount ch) \/
  ev = ENotifyOnAccountDelete self.
Proof.
  js_run.
  destruct (state_remove app [] (user_id self)) as [e |]; js_run.
  { cbn. intuition. }
  destruct (channel_find app [EStateRemove (user_id self)]
              (keys (subscriptions self))) as [e | channels].
  { cbn. intuition. }
  change (for_each channels _)
    with (for_each channels (fun ch => fire (EChannelUpdateSubscriberCount ch))).
  rewrite for_each_fire.
  cbn. intros [<- | [<- | Hin]]; [auto | auto |].
  apply in_app_iff in Hin as [Hin | [<- | []]]; [| auto].
  apply in_map_iff in Hin as (ch & <- & _). eauto.
Qed.

Lemma post_remove_calls_witness :
  EChannelUpdateSubscriberCount fresh_channel = EStateRemove (user_id dave) \/
  EChannelUpdateSubscriberCount fresh_channel
    = EChannelFind (keys (subscriptions dave)) \/
  (exists ch, EChannelUpdateSubscriberCount fresh_channel
                = EChannelUpdateSubscriberCount ch) \/
  EChannelUpdateSubscriberCount fresh_channel = ENotifyOnAccountDelete dave.
Proof.
  apply (post_remove_calls (channels_app [news; fresh_channel]) dave).
  vm_compute. tauto.
Defined.

(** *** checkIfUsernameUnique *)

(** X18.  [checkIfUsernameUnique] never throws and makes one query, by name;
    it answers true exactly when the query finds a document, and false both
    when no document has the name and when the query fails. *)
Theorem checkIfUsernameUnique_true_iff_found (app : App) (username : string) :
  let q := mkUserQuery None None (Some username) None in
  exists b,
    checkIfUsernameUnique app username = (Returned b, [EUserFindOne q]) /\
    (b = true <-> exists doc, user_findOne app [] q = inr (Some doc)).
Proof.
  intros q. js_more. fold q.
  destruct (user_findOne app [] q) as [e | [doc |]]; js_run.
  - exists false. split; [reflexivity |].
    split; [discriminate | now intros [doc [=]]].
  - exists true. split; [reflexivity |]. split; eauto.
  - exists false. split; [reflexivity |].
    split; [discriminate | now intros [doc [=]]].
Qed.

(** *** checkIfUnverified *)

(** X19.  When the global object defines [id], [checkIfUnverified] looks for
    an unverified user with that id, whatever id it is called with: it
    succeeds when one is found, answers that the user is not found or
    already verified when none is, and throws the error of a failed
    query. *)
Theorem checkIfUnverified_uses_global_id (app : App) (uid : ObjectId) (v : JsValue) :
  global app !! "id" = Some v ->
  let q := mkUserQuery (Some v) None None (Some false) in
  checkIfUnverified app uid =
    match user_findOne app [] q with
    | inl e => (Threw (Uncaught e), [EUserFindOne q])
    | inr None =>
        (Returned (Some "User not found or already verified."), [EUserFindOne q])
    | inr (Some _) => (Returned None, [EUserFindOne q])
    end.
Proof.
  intros Hglobal q. js_unfold. cbn. rewrite Hglobal. js_run. fold q.
  destruct (user_findOne app [] q) as [e | [doc |]]; reflexivity.
Qed.

Lemma checkIfUnverified_uses_global_id_witness :
  checkIfUnverified global_id_app (user_id bob) =
    (Returned None,
     [EUserFindOne (mkUserQuery (Some (VString (user_id carol))) None None
                                (Some false))]).
Proof.
  apply (checkIfUnverified_uses_global_id global_id_app (user_id bob)
           (VString (user_id carol))).
  vm_compute. reflexivity.
Defined.

(** *** hashPassword *)

Lemma append_assoc (a b c : string) : (a +:+ b) +:+ c = a +:+ (b +:+ c).
Proof.
  induction a as [| x a IH]; [reflexivity |].
  change (String x ((a +:+ b) +:+ c) = String x (a +:+ (b +:+ c))).
  now rewrite IH.
Qed.

(** X20.  [hashPassword] hashes the id and the password run together after
    a fixed prefix, with nothing between them: moving characters from the
    end of the id to the front of the password gives the same hash. *)
Theorem hashPassword_boundary (sha1_hex : string -> string) (id s plainPass : string) :
  hashPassword sha1_hex (id +:+ s) plainPass = hashPassword sha1_hex id (s +:+ plainPass).
Proof. unfold hashPassword. now rewrite append_assoc. Qed.

(** *** getChannelUpdates *)

(** A loop that runs to its end met no dirty channel without [items_added]. *)
Lemma for_each_collect_update_returned state results :
  forall (s s' : Machine (list ChannelUpdate)),
    for_each results (collect_update state) s = (Returned tt, s') ->
    Forall (fun ch => dirty state ch = true -> items_added ch <> None) results.
Proof.
  induction results as [| ch rest IH]; intros s s' Hrun; [constructor |].
  cbn [for_each] in Hrun. unfold bind at 1 in Hrun.
  destruct (dirty state ch) eqn:Hdirty.
  - destruct (items_added ch) as [d |] eqn:Hd.
    + rewrite (collect_update_dirty _ _ d) in Hrun by assumption.
      constructor; [congruence | exact (IH _ _ Hrun)].
    + rewrite collect_update_throws in Hrun by assumption. discriminate Hrun.
  - rewrite collect_update_clean in Hrun by assumption.
    constructor; [congruence | exact (IH _ _ Hrun)].
Qed.

Lemma getChannelUpdates_returned_crawled (app : App) (self : User) state results
    updates h :
  channel_find app [] (keys state) = inr results ->
  getChannelUpdates app self (Some state) = (Returned updates, h) ->
  Forall (fun ch => dirty state ch = true -> items_added ch <> None) results.
Proof.
  intros Hfind. js_run. js_answer Hfind.
  destruct (for_each results (collect_update state) _) as [[[] | x] s'] eqn:Hloop;
    [| discriminate].
  intros _. exact (for_each_collect_update_returned _ _ _ _ Hloop).
Qed.

Lemma getChannelUpdates_returned (app : App) (self : User) state results updates h :
  channel_find app [] (keys state) = inr results ->
  getChannelUpdates app self (Some state) = (Returned updates, h) ->
  updates = map update_of (List.filter (dirty state) results).
Proof.
  intros Hfind Hrun.
  pose proof (getChannelUpdates_returned_crawled _ _ _ _ _ _ Hfind Hrun) as Hok.
  rewrite (getChannelUpdates_crawled app self state results Hfind Hok) in Hrun.
  now injection Hrun as <- _.
Qed.

(** X21.  When [getChannelUpdates] returns, its result holds one entry for
    each channel of the query result that has an [items_added] date and a
    watermark that is a number within the range of [Date] and strictly less
    than the time of that date, and no other entry; the entries come in the
    order of the query result, each with the id of its channel, the time of
    its [items_added] and its items in their order, every item with its
    creation time as an epoch value. *)
Theorem getChannelUpdates_reports_dirty (app : App) (self : User)
    (state : gmap string Z) (results : list Channel)
    (updates : list ChannelUpdate) (h : History) :
  channel_find app [] (keys state) = inr results ->
  getChannelUpdates app self (Some state) = (Returned updates, h) ->
  let stale (ch : Channel) : bool :=
    match state !! channel_id ch, items_added ch with
    | Some w, Some d => (Z.abs w <=? 8640000000000000) && (w <? getTime d)
    | _, _ => false
    end in
  Forall2
    (fun ch u =>
       exists d,
         items_added ch = Some d /\
         u = mkChannelUpdate (channel_id ch) (getTime d)
               (map (fun it => mkItemUpdate (item_content it)
                                            (getTime (item_created it)))
                    (items ch)))
    (List.filter stale results) updates /\
  forall ch,
    In ch (List.filter stale results) <->
    In ch results /\
    exists w d,
      state !! channel_id ch = Some w /\ items_added ch = Some d /\
      - 8640000000000000 <= w <= 8640000000000000 /\ w < getTime d.
Proof.
  intros Hfind Hrun stale.
  pose proof (getChannelUpdates_returned_crawled _ _ _ _ _ _ Hfind Hrun) as Hok.
  pose proof (getChannelUpdates_returned _ _ _ _ _ _ Hfind Hrun) as ->.
  assert (Hsame : forall ch, In ch results -> dirty state ch = stale ch).
  { intros ch Hin. rewrite Forall_forall in Hok.
    specialize (Hok ch (proj2 (list_elem_of_In _ _) Hin)).
    unfold stale, dirty, server_time, later_than, max_time in *.
    destruct (state !! channel_id ch) as [w |]; [| reflexivity].
    destruct (items_added ch) as [d |].
    - now destruct (Z.abs w <=? 8640000000000000).
    - destruct (Z.abs w <=? 8640000000000000); [| reflexivity].
      destruct (w <? 0); [now destruct Hok | reflexivity]. }
  rewrite (filter_ext_in _ _ _ Hsame). split.
  - assert (Hdated : forall ch, In ch (List.filter stale results) ->
                                exists d, items_added ch = Some d).
    { intros ch Hin. apply filter_In in Hin as [_ Hst]. unfold stale in Hst.
      destruct (state !! channel_id ch); [| discriminate].
      destruct (items_added ch) as [d |]; [eauto | discriminate]. }
    induction (List.filter stale results) as [| ch rest IH]; [constructor |].
    cbn [map]. constructor.
    + destruct (Hdated ch (or_introl eq_refl)) as [d Hd]. exists d.
      split; [exact Hd |]. unfold update_of, server_time, created_to_epoch.
      now rewrite Hd.
    + apply IH. intros c Hc. apply Hdated. now right.
  - intros ch. rewrite filter_In. unfold stale. split.
    + intros [Hin Hst]. split; [exact Hin |].
      destruct (state !! channel_id ch) as [w |]; [| discriminate].
      destruct (items_added ch) as [d |]; [| discriminate].
      apply andb_prop in Hst as [Hrange Hlt].
      apply Z.leb_le in Hrange. apply Z.ltb_lt in Hlt.
      exists w, d. repeat split; [lia | lia | exact Hlt].
    + intros [Hin (w & d & -> & -> & Hrange & Hlt)]. split; [exact Hin |].
      apply andb_true_intro. split; [apply Z.leb_le; lia | now apply Z.ltb_lt].
Qed.

Lemma getChannelUpdates_reports_dirty_witness :
  let state : gmap string Z :=
    {[ channel_id news := 10; channel_id fresh_channel := 0 ]} in
  let updates := [mkChannelUpdate (channel_id news) 50
                    [mkItemUpdate "first" 40; mkItemUpdate "second" 50]] in
  let stale (ch : Channel) : bool :=
    match state !! channel_id ch, items_added ch with
    | Some w, Some d => (Z.abs w <=? 8640000000000000) && (w <? getTime d)
    | _, _ => false
    end in
  Forall2
    (fun ch u =>
       exists d,
         items_added ch = Some d /\
         u = mkChannelUpdate (channel_id ch) (getTime d)
               (map (fun it => mkItemUpdate (item_content it)
                                            (getTime (item_created it)))
                    (items ch)))
    (List.filter stale [news; fresh_channel]) updates /\
  forall ch,
    In ch (List.filter stale [news; fresh_channel]) <->
    In ch [news; fresh_channel] /\
    exists w d,
      state !! channel_id ch = Some w /\ items_added ch = Some d /\
      - 8640000000000000 <= w <= 8640000000000000 /\ w < getTime d.
Proof.
  intros state updates.
  apply (getChannelUpdates_reports_dirty (channels_app [news; fresh_channel])
           alice state [news; fresh_channel] updates
           [EChannelFind (keys state)]);
    vm_compute; reflexivity.
Defined.

(** A watermark beyond the range of [Date] reports nothing, however far
    back it is. *)
Example getChannelUpdates_watermark_out_of_range :
  let state : gmap string Z := {[ channel_id news := -8640000000000001 ]} in
  getChannelUpdates (channels_app [news; fresh_channel]) alice (Some state) =
    (Returned [], [EChannelFind [channel_id news]]).
Proof. vm_compute. reflexivity. Qed.

(** *** Watermarks taken in *)

Lemma acknowledge_other state updates id :
  (forall u, In u updates -> upd_id u <> id) ->
  acknowledge state updates !! id = state !! id.
Proof.
  induction updates as [| u rest IH]; intros Hne; [reflexivity |].
  cbn. rewrite lookup_insert_ne by (apply Hne; now left).
  apply IH. intros u' Hu'. apply Hne. now right.
Qed.

Lemma acknowledge_reported state updates u :
  List.NoDup (map upd_id updates) ->
  In u updates ->
  acknowledge state updates !! upd_id u = Some (upd_items_added u).
Proof.
  induction updates as [| u0 rest IH]; intros Hnodup Hin; [destruct Hin |].
  cbn in Hnodup. apply NoDup_cons_iff in Hnodup as [Hnotin Hnodup].
  cbn. destruct Hin as [-> | Hin].
  - apply lookup_insert_eq.
  - rewrite lookup_insert_ne; [now apply IH |].
    intros Heq. apply Hnotin. rewrite Heq. now apply in_map.
Qed.

Lemma NoDup_map_filter {A B} (f : A -> B) (p : A -> bool) (l : list A) :
  List.NoDup (map f l) -> List.NoDup (map f (List.filter p l)).
Proof.
  induction l as [| a l IH]; cbn; [auto |]. intros Hnodup.
  apply NoDup_cons_iff in Hnodup as [Hnotin Hnodup].
  destruct (p a); [| now apply IH]. cbn. apply NoDup_cons_iff. split; [| now apply IH].
  intros Hin. apply Hnotin. apply in_map_iff in Hin as (b & Hb & Hin).
  apply filter_In in Hin as [Hin _]. rewrite <- Hb. now apply in_map.
Qed.

Lemma NoDup_map_eq {A B} (f : A -> B) (l : list A) (a b : A) :
  List.NoDup (map f l) -> In a l -> In b l -> f a = f b -> a = b.
Proof.
  induction l as [| x l IH]; [intros _ [] |]. cbn. intros Hnodup Ha Hb Heq.
  apply NoDup_cons_iff in Hnodup as [Hnotin Hnodup].
  destruct Ha as [-> | Ha], Hb as [-> | Hb]; [reflexivity | | | now apply IH].
  - destruct Hnotin. rewrite Heq. now apply in_map.
  - destruct Hnotin. rewrite <- Heq. now apply in_map.
Qed.

(** X22.  The delta sync closes: when the channels of the query result have
    distinct ids, and the client replaces the watermark of every reported
    channel by the [items_added] it was reported with, a second call over
    the same channels reports nothing. *)
Theorem getChannelUpdates_acknowledged (app : App) (self : User)
    (state : gmap string Z) (results : list Channel)
    (updates : list ChannelUpdate) (h : History) :
  channel_find app [] (keys state) = inr results ->
  List.NoDup (map channel_id results) ->
  getChannelUpdates app self (Some state) = (Returned updates, h) ->
  channel_find app [] (keys (acknowledge state updates)) = inr results ->
  getChannelUpdates app self (Some (acknowledge state updates)) =
    (Returned [], [EChannelFind (keys (acknowledge state updates))]).
Proof.
  intros Hfind Hnodup Hrun Hfind'.
  pose proof (getChannelUpdates_returned _ _ _ _ _ _ Hfind Hrun) as Hupd.
  assert (Hclean : Forall (fun ch => dirty (acknowledge state updates) ch = false)
                     results).
  { apply Forall_forall. intros ch Hin. apply list_elem_of_In in Hin.
    destruct (dirty state ch) eqn:Hdirty.
    - assert (Hu : In (update_of ch) updates).
      { rewrite Hupd. apply in_map. now apply filter_In. }
      assert (Hnd : List.NoDup (map upd_id updates)).
      { rewrite Hupd, map_map. cbn. now apply NoDup_map_filter. }
      unfold dirty.
      change (channel_id ch) with (upd_id (update_of ch)).
      rewrite (acknowledge_reported state updates (update_of ch) Hnd Hu).
      cbn. unfold later_than.
      destruct (Z.abs (server_time ch) <=? max_time);
        [apply Z.ltb_irrefl | reflexivity].
    - unfold dirty in *. rewrite acknowledge_other; [exact Hdirty |].
      intros u Hu Heq. rewrite Hupd in Hu.
      apply in_map_iff in Hu as (ch' & <- & Hin').
      apply filter_In in Hin' as [Hin' Hdirty']. cbn in Heq.
      assert (ch' = ch) as -> by (eapply NoDup_map_eq; eauto).
      unfold dirty in Hdirty'. congruence. }
  rewrite (getChannelUpdates_crawled app self _ results Hfind').
  - replace (List.filter (dirty (acknowledge state updates)) results) with (@nil Channel);
      [reflexivity |].
    clear -Hclean. induction Hclean as [| ch rest Hch _ IH]; [reflexivity |].
    cbn. now rewrite Hch.
  - eapply Forall_impl; [exact Hclean |]. cbn. intros ch Hch. congruence.
Qed.

Lemma getChannelUpdates_acknowledged_witness :
  let state : gmap string Z :=
    {[ channel_id news := 10; channel_id fresh_channel := 0 ]} in
  let updates := [mkChannelUpdate (channel_id news) 50
                    [mkItemUpdate "first" 40; mkItemUpdate "second" 50]] in
  getChannelUpdates (channels_app [news; fresh_channel]) alice
                    (Some (acknowledge state updates)) =
    (Returned [], [EChannelFind (keys (acknowledge state updates))]).
Proof.
  intros state updates.
  apply (getChannelUpdates_acknowledged (channels_app [news; fresh_channel])
           alice state [news; fresh_channel] updates [EChannelFind (keys state)]).
  - vm_compute. reflexivity.
  - vm_compute. repeat constructor; cbn; intuition discriminate.
  - vm_compute. reflexivity.
  - vm_compute. reflexivity.
Defined.

(** X23.  [getChannelUpdates] only reads: whatever its outcome, an exception
    included, its one call is the query of the channels whose ids are the
    keys of the watermarks, and without watermarks it calls nothing. *)
Theorem getChannelUpdates_reads_once (app : App) (self : User)
    (state : option (gmap string Z)) :
  snd (getChannelUpdates app self state) =
    match state with
    | Some st => [EChannelFind (keys st)]
    | None => []
    end.
Proof.
  destruct state as [st |]; [| reflexivity]. js_run.
  destruct (channel_find app [] (keys st)) as [e | results]; [reflexivity |].
  destruct (for_each results (collect_update st) _) as [o s'] eqn:Hloop.
  apply for_each_collect_update in Hloop as [Hh _].
  destruct o; exact Hh.
Qed.
